(** * wedding-site: the password gate, the RSVP form and the admin join

    A shallow embedding of the client code of the site (auth.ts, rsvp.ts,
    admin.ts in their successive variants) together with a model of the two
    collaborators the code talks to: the browser's sessionStorage and the
    Supabase row store.

    Conventions.
    - A JavaScript string is a Rocq [string]; an [ascii] stands for one code
      unit below 256.  Case folding and white space are those of that range
      restricted to the ASCII letters (plus the no-break space for [trim]).
    - sessionStorage and the JS [Map] of the admin page are [gmap string _].
    - An async handler is a computation in a state-and-exception monad; the
      awaited calls of one handler run are sequential, as in the source. *)

From Stdlib Require Import String Ascii List Bool ZArith Lia.
From stdpp Require Import base gmap strings list.
Import ListNotations.

Local Open Scope string_scope.

(* ===================================================================== *)
(** ** JavaScript values used by the code                                 *)
(* ===================================================================== *)

Module Js.

(** White space removed by [String.prototype.trim] and skipped by
    [parseInt], within the code units below 256: TAB, LF, VT, FF, CR,
    SPACE and NBSP. *)
Definition isWhiteSpace (c : ascii) : bool :=
  let n := nat_of_ascii c in
  (n =? 9)%nat || (n =? 10)%nat || (n =? 11)%nat || (n =? 12)%nat
  || (n =? 13)%nat || (n =? 32)%nat || (n =? 160)%nat.

Fixpoint trimStart (s : string) : string :=
  match s with
  | EmptyString => EmptyString
  | String c s' => if isWhiteSpace c then trimStart s' else s
  end.

Fixpoint trimEnd (s : string) : string :=
  match s with
  | EmptyString => EmptyString
  | String c s' =>
      match trimEnd s' with
      | EmptyString => if isWhiteSpace c then EmptyString else String c EmptyString
      | r => String c r
      end
  end.

(** [s.trim()] *)
Definition trim (s : string) : string := trimEnd (trimStart s).

Definition toLowerChar (c : ascii) : ascii :=
  let n := nat_of_ascii c in
  if (65 <=? n)%nat && (n <=? 90)%nat then ascii_of_nat (n + 32) else c.

(** [s.toLowerCase()] *)
Fixpoint toLowerCase (s : string) : string :=
  match s with
  | EmptyString => EmptyString
  | String c s' => String (toLowerChar c) (toLowerCase s')
  end.

(** Truthiness of a string: [if (s)], [!s], [s || d]. *)
Definition truthy (s : string) : bool :=
  match s with EmptyString => false | String _ _ => true end.

(** [s || undefined] *)
Definition orUndefined (s : string) : option string :=
  if truthy s then Some s else None.

(** A JS number as far as the form needs it: the result of [parseInt] is
    NaN or an integer (the rounding to a double of integers beyond 2^53
    and the sign of zero are left out). *)
Inductive number := NaN | Num (z : Z).

Definition digitValue (c : ascii) : option Z :=
  let n := Z.of_nat (nat_of_ascii c) in
  if (48 <=? n)%Z && (n <=? 57)%Z then Some (n - 48)%Z
  else if (97 <=? n)%Z && (n <=? 122)%Z then Some (n - 87)%Z
  else if (65 <=? n)%Z && (n <=? 90)%Z then Some (n - 55)%Z
  else None.

(** The longest prefix of digits of the radix, read as an integer; [acc]
    is [None] until a first digit is seen. *)
Fixpoint digits (radix : Z) (s : string) (acc : option Z) : option Z :=
  match s with
  | EmptyString => acc
  | String c s' =>
      match digitValue c with
      | Some d =>
          if (d <? radix)%Z
          then digits radix s' (Some (radix * default 0%Z acc + d)%Z)
          else acc
      | None => acc
      end
  end.

Definition stripSign (s : string) : Z * string :=
  match s with
  | String "-" r => ((-1)%Z, r)
  | String "+" r => (1%Z, r)
  | _ => (1%Z, s)
  end.

Definition stripHexPrefix (s : string) : Z * string :=
  match s with
  | String "0" (String "x" r) => (16%Z, r)
  | String "0" (String "X" r) => (16%Z, r)
  | _ => (10%Z, s)
  end.

(** [parseInt(s)] without a radix argument. *)
Definition parseInt (s : string) : number :=
  let '(sign, s1) := stripSign (trimStart s) in
  let '(radix, s2) := stripHexPrefix s1 in
  match digits radix s2 None with
  | None => NaN
  | Some n => Num (sign * n)
  end.

End Js.

(* ===================================================================== *)
(** ** The pattern match behind [.ilike(column, pattern)]                 *)
(* ===================================================================== *)

(** supabase-js sends [column=ilike.pattern] to PostgREST, which reads [*]
    in the pattern as [%] and hands the result to PostgreSQL's ILIKE:
    [%] stands for any run of characters, [_] for any one character, a
    backslash makes the next character literal, every other character
    stands for itself, and letters are compared without case.

    On a pattern that ends in a lone backslash PostgreSQL fails the request
    once its matcher reaches that backslash, and the handlers then take
    their error path.  [like] has no such outcome: it answers [false]
    there.  [wellFormed] tells the patterns on which [like] is the
    server's answer; a result about an answered ILIKE request whose
    pattern comes from user input either assumes [wellFormed] of the
    pattern, or has a conclusion that the error path satisfies too. *)
Module Sql.

Definition percent : ascii := "%"%char.
Definition underscore : ascii := "_"%char.
Definition backslash : ascii := "\"%char.
Definition star : ascii := "*"%char.

Definition isEmpty (t : string) : bool :=
  match t with EmptyString => true | String _ _ => false end.

Fixpoint like (p : string) : string -> bool :=
  match p with
  | EmptyString => isEmpty
  | String c p' =>
      if Ascii.eqb c percent then
        fix anywhere (t : string) : bool :=
          like p' t
          || match t with
             | EmptyString => false
             | String _ t' => anywhere t'
             end
      else if Ascii.eqb c underscore then
        fun t => match t with
                 | EmptyString => false
                 | String _ t' => like p' t'
                 end
      else if Ascii.eqb c backslash then
        match p' with
        | EmptyString => fun _ => false
        | String d p'' =>
            fun t => match t with
                     | EmptyString => false
                     | String x t' => Ascii.eqb d x && like p'' t'
                     end
        end
      else
        fun t => match t with
                 | EmptyString => false
                 | String x t' => Ascii.eqb c x && like p' t'
                 end
  end.

(** PostgREST's alias: [*] in the request is [%] in the SQL pattern. *)
Fixpoint starToPercent (p : string) : string :=
  match p with
  | EmptyString => EmptyString
  | String c p' =>
      String (if Ascii.eqb c star then percent else c) (starToPercent p')
  end.

(** [text ILIKE pattern] as reached through [.ilike(_, pattern)]. *)
Definition ilike (pattern text : string) : bool :=
  like (Js.toLowerCase (starToPercent pattern)) (Js.toLowerCase text).

(** The characters that make a pattern differ from a plain string. *)
Definition isMeta (c : ascii) : bool :=
  Ascii.eqb c percent || Ascii.eqb c underscore
  || Ascii.eqb c backslash || Ascii.eqb c star.

Fixpoint noMeta (s : string) : bool :=
  match s with
  | EmptyString => true
  | String c s' => negb (isMeta c) && noMeta s'
  end.

(** No lone backslash at the end: every backslash escapes a character. *)
Fixpoint wellFormed (p : string) : bool :=
  match p with
  | EmptyString => true
  | String c p' =>
      if Ascii.eqb c backslash then
        match p' with
        | EmptyString => false
        | String _ p'' => wellFormed p''
        end
      else wellFormed p'
  end.

Fixpoint noBackslash (s : string) : bool :=
  match s with
  | EmptyString => true
  | String c s' => negb (Ascii.eqb c backslash) && noBackslash s'
  end.

End Sql.

(* ===================================================================== *)
(** ** Handlers: state and exceptions                                     *)
(* ===================================================================== *)

(** What a run of a piece of code ends with: a value, or a thrown
    [Error(message)]. *)
Inductive Outcome (A : Type) : Type :=
  | Returned (a : A)
  | Thrown (message : string).
Arguments Returned {A} a.
Arguments Thrown {A} message.

(** A computation over a mutable world [W].  State changes made before a
    throw stay, as in JavaScript. *)
Definition M (W A : Type) : Type := W -> Outcome A * W.

Section Monad.
Context {W : Type}.

Definition ret {A} (a : A) : M W A := fun w => (Returned a, w).

Definition bind {A B} (c : M W A) (k : A -> M W B) : M W B :=
  fun w =>
    match c w with
    | (Returned a, w') => k a w'
    | (Thrown e, w') => (Thrown e, w')
    end.

(** [throw new Error(message)] *)
Definition throw {A} (message : string) : M W A := fun w => (Thrown message, w).

Definition get : M W W := fun w => (Returned w, w).

Definition modify (f : W -> W) : M W unit := fun w => (Returned tt, f w).

(** [try { body } catch (err) { handler(err) } finally { cleanup }]; the
    early [return]s of the source inside [body] are branches of [body],
    so that [cleanup] runs after them too. *)
Definition try_catch_finally (body : M W unit) (handler : string -> M W unit)
    (cleanup : M W unit) : M W unit :=
  fun w =>
    match body w with
    | (Returned tt, w1) => cleanup w1
    | (Thrown e, w1) =>
        match handler e w1 with
        | (Returned tt, w2) => cleanup w2
        | (Thrown e', w2) =>
            match cleanup w2 with
            | (Returned tt, w3) => (Thrown e', w3)
            | (Thrown e'', w3) => (Thrown e'', w3)
            end
        end
    end.

(** [try { body } catch (err) { handler(err) }] *)
Definition try_catch (body : M W unit) (handler : string -> M W unit) : M W unit :=
  try_catch_finally body handler (ret tt).

(** The world a computation leaves behind. *)
Definition exec {A} (c : M W A) (w : W) : W := snd (c w).

(** The value it returns, when it does. *)
Definition result {A} (c : M W A) (w : W) : Outcome A := fst (c w).

End Monad.

Declare Scope js_scope.
Delimit Scope js_scope with js.
Notation "'let*' x ':=' c 'in' k" := (bind c (fun x => k))
  (at level 10, x name, c at level 100, k at level 200) : js_scope.
Notation "c ';;;' k" := (bind c (fun _ => k))
  (at level 100, k at level 200, right associativity) : js_scope.
Local Open Scope js_scope.

(* ===================================================================== *)
(** ** sessionStorage                                                     *)
(* ===================================================================== *)

Module Storage.

(** [sessionStorage.getItem(key)]: [None] is JavaScript's [null]. *)
Definition getItem (key : string) (store : gmap string string) : option string :=
  store !! key.

Definition setItem (key value : string) (store : gmap string string)
  : gmap string string := <[key := value]> store.

Definition removeItem (key : string) (store : gmap string string)
  : gmap string string := delete key store.

End Storage.

(* ===================================================================== *)
(** ** The Supabase row store                                             *)
(* ===================================================================== *)

Module Supabase.

(** supabase.ts: an invitee row. *)
Record Invitee := mkInvitee {
  inv_id : option string;
  inv_created_at : option string;
  inv_last_name : string;
  has_plus_one : bool;
  plus_one_name : option string
}.

Inductive Table := rsvps | invitees.

(** The filters the code uses: [.eq(column, value)] and
    [.ilike(column, pattern)]. *)
Inductive Filter :=
  | Eq (column value : string)
  | ILike (column pattern : string).

(** The text columns of a row; [None] for a column that is NULL or that
    the row does not have, on which no filter holds. *)
Class Columns (Row : Type) := column : string -> Row -> option string.

Definition holds {Row} `{Columns Row} (f : Filter) (r : Row) : bool :=
  match f with
  | Eq c v =>
      match column c r with Some x => String.eqb x v | None => false end
  | ILike c p =>
      match column c r with Some x => Sql.ilike p x | None => false end
  end.

#[global] Instance invitee_columns : Columns Invitee := fun c r =>
  if String.eqb c "last_name" then Some (inv_last_name r)
  else if String.eqb c "plus_one_name" then plus_one_name r
  else if String.eqb c "id" then inv_id r
  else None.

(** The [{ data, error }] pair every call resolves to. *)
Record Response (A : Type) := mkResponse {
  data : option A;
  error : option string
}.
Arguments mkResponse {A} data error.
Arguments data {A} r.
Arguments error {A} r.

Section Server.
Context {Rsvp : Type} `{Columns Rsvp}.

(** The requests the modelled code issues. *)
Inductive Request :=
  | Select (t : Table) (f : Filter) (limit : nat)
  | InsertRsvps (rows : list Rsvp).

(** The remote store: its two tables in the order the server returns
    their rows, the requests the client has sent so far (latest first), and the
    fate of the coming requests: each request consumes the head of
    [faults], and [Some message] there makes it fail with that message
    (network failure, policy rejection, server fault) without touching
    the tables; once the list is used up every request goes through. *)
Record Server := mkServer {
  tbl_rsvps : list Rsvp;
  tbl_invitees : list Invitee;
  requests : list Request;
  faults : list (option string)
}.

Definition receive (q : Request) (s : Server) : option string * Server :=
  (hd None (faults s),
   mkServer (tbl_rsvps s) (tbl_invitees s) (q :: requests s) (tl (faults s))).

(** [from('rsvps').select(..).<filter>.limit(n)] *)
Definition selectRsvps (f : Filter) (limit : nat) (s : Server)
  : Response (list Rsvp) * Server :=
  match receive (Select rsvps f limit) s with
  | (Some message, s') => (mkResponse None (Some message), s')
  | (None, s') =>
      (mkResponse (Some (take limit (List.filter (holds f) (tbl_rsvps s')))) None, s')
  end.

(** [from('invitees').select(..).<filter>.limit(n)] *)
Definition selectInvitees (f : Filter) (limit : nat) (s : Server)
  : Response (list Invitee) * Server :=
  match receive (Select invitees f limit) s with
  | (Some message, s') => (mkResponse None (Some message), s')
  | (None, s') =>
      (mkResponse (Some (take limit (List.filter (holds f) (tbl_invitees s')))) None, s')
  end.

(** [from('rsvps').insert(rows)]: the rows are appended (the [id] and
    [created_at] the server assigns are not modelled). *)
Definition insertRsvps (rows : list Rsvp) (s : Server)
  : Response unit * Server :=
  match receive (InsertRsvps rows) s with
  | (Some message, s') => (mkResponse None (Some message), s')
  | (None, s') =>
      (mkResponse None None,
       mkServer (tbl_rsvps s' ++ rows) (tbl_invitees s') (requests s') (faults s'))
  end.

End Server.
Arguments Request Rsvp : clear implicits.
Arguments Server Rsvp : clear implicits.

End Supabase.

(* ===================================================================== *)
(** ** auth.ts, password-only variant                                     *)
(* ===================================================================== *)

Module Auth.
Section Gate.
(** [import.meta.env.VITE_SITE_PASSWORD] *)
Variable CORRECT_PASSWORD : string.

Definition STORAGE_KEY : string := "wedding_auth".

Definition isAuthenticated (store : gmap string string) : bool :=
  bool_decide (Storage.getItem STORAGE_KEY store = Some "true").

Definition attemptLogin (password : string) (store : gmap string string)
  : bool * gmap string string :=
  if String.eqb password CORRECT_PASSWORD
  then (true, Storage.setItem STORAGE_KEY "true" store)
  else (false, store).

Definition logout (store : gmap string string) : gmap string string :=
  Storage.removeItem STORAGE_KEY store.

End Gate.
End Auth.

(* ===================================================================== *)
(** ** auth.ts, name-verified variant                                     *)
(* ===================================================================== *)

Module AuthNamed.

Definition STORAGE_KEY : string := "wedding_auth".
Definition LAST_NAME_KEY : string := "wedding_auth_last_name".

Definition isAuthenticated (store : gmap string string) : bool :=
  bool_decide (Storage.getItem STORAGE_KEY store = Some "true")
  && bool_decide (Storage.getItem LAST_NAME_KEY store <> None).

Definition logout (store : gmap string string) : gmap string string :=
  Storage.removeItem LAST_NAME_KEY (Storage.removeItem STORAGE_KEY store).

(** The elements [showPasswordGate] creates and its handlers touch. *)
Record Dom := mkDom {
  lastNameInput_value : string;
  input_value : string;
  error_textContent : string;
  submitBtn_disabled : bool;
  submitBtn_textContent : string;
  overlay_classList : gset string;
  input_classList : gset string;
  lastNameInput_classList : gset string
}.

Inductive GateInput := PasswordInput | LastNameInput.

Section Gate.
Context {Rsvp : Type}.
(** [import.meta.env.VITE_SITE_PASSWORD] *)
Variable CORRECT_PASSWORD : string.

Record World := mkWorld {
  session : gmap string string;
  server : Supabase.Server Rsvp;
  dom : Dom;
  console : list string
}.

Definition withDom (f : Dom -> Dom) : M World unit :=
  modify (fun w => mkWorld (session w) (server w) (f (dom w)) (console w)).

Definition set_error_textContent (t : string) : M World unit :=
  withDom (fun d => mkDom (lastNameInput_value d) (input_value d) t
                      (submitBtn_disabled d) (submitBtn_textContent d)
                      (overlay_classList d) (input_classList d)
                      (lastNameInput_classList d)).

Definition set_input_value (v : string) : M World unit :=
  withDom (fun d => mkDom (lastNameInput_value d) v (error_textContent d)
                      (submitBtn_disabled d) (submitBtn_textContent d)
                      (overlay_classList d) (input_classList d)
                      (lastNameInput_classList d)).

(** [submitBtn.disabled = b; submitBtn.textContent = t] *)
Definition set_submitBtn (b : bool) (t : string) : M World unit :=
  withDom (fun d => mkDom (lastNameInput_value d) (input_value d)
                      (error_textContent d) b t
                      (overlay_classList d) (input_classList d)
                      (lastNameInput_classList d)).

Definition overlay_classList_add (c : string) : M World unit :=
  withDom (fun d => mkDom (lastNameInput_value d) (input_value d)
                      (error_textContent d) (submitBtn_disabled d)
                      (submitBtn_textContent d)
                      ({[c]} ∪ overlay_classList d) (input_classList d)
                      (lastNameInput_classList d)).

(** [shakeInput(el)]; the removal of the class on [animationend] is a
    later event. *)
Definition shakeInput (el : GateInput) : M World unit :=
  withDom (fun d =>
    match el with
    | PasswordInput =>
        mkDom (lastNameInput_value d) (input_value d) (error_textContent d)
          (submitBtn_disabled d) (submitBtn_textContent d)
          (overlay_classList d) ({["gate-shake"]} ∪ input_classList d)
          (lastNameInput_classList d)
    | LastNameInput =>
        mkDom (lastNameInput_value d) (input_value d) (error_textContent d)
          (submitBtn_disabled d) (submitBtn_textContent d)
          (overlay_classList d) (input_classList d)
          ({["gate-shake"]} ∪ lastNameInput_classList d)
    end).

Definition sessionStorage_setItem (k v : string) : M World unit :=
  modify (fun w => mkWorld (Storage.setItem k v (session w)) (server w)
                     (dom w) (console w)).

Definition console_error (e : string) : M World unit :=
  modify (fun w => mkWorld (session w) (server w) (dom w) (e :: console w)).

(** [await supabase...]: one request to the server. *)
Definition await {A} (q : Supabase.Server Rsvp -> A * Supabase.Server Rsvp)
  : M World A :=
  fun w => let '(a, s') := q (server w) in
           (Returned a, mkWorld (session w) s' (dom w) (console w)).

(** The submit handler of the gate form.  The gate opens when the
    overlay gets the class [gate-exit] (the promise resolves at the end
    of that animation). *)
Definition onSubmit : M World unit :=
  set_error_textContent EmptyString ;;;
  set_submitBtn true "Checking..." ;;;
  let* w := get in
  let password := Js.trim (input_value (dom w)) in
  let lastName := Js.trim (lastNameInput_value (dom w)) in
  (* Step 1: Check password *)
  if negb (String.eqb password CORRECT_PASSWORD) then
    set_input_value EmptyString ;;;
    set_error_textContent "Incorrect password. Try again!" ;;;
    shakeInput PasswordInput ;;;
    set_submitBtn false "Enter"
  else
    (* Step 2: Check last name against invitees table *)
    try_catch
      (let* r := await (Supabase.selectInvitees
                          (Supabase.ILike "last_name" lastName) 1) in
       match Supabase.error r with
       | Some message => throw message
       | None =>
           match Supabase.data r with
           | None | Some [] =>
               set_error_textContent
                 "Last name not found on guest list. Please check your invitation or contact us." ;;;
               shakeInput LastNameInput ;;;
               set_submitBtn false "Enter"
           | Some (row :: _) =>
               (* Both checks passed: store auth *)
               let matchedLastName := Supabase.inv_last_name row in
               sessionStorage_setItem STORAGE_KEY "true" ;;;
               sessionStorage_setItem LAST_NAME_KEY matchedLastName ;;;
               overlay_classList_add "gate-exit"
           end
       end)
      (fun err =>
         set_error_textContent "Something went wrong. Please try again." ;;;
         console_error err ;;;
         set_submitBtn false "Enter").

(** The gate is leaving the page. *)
Definition opened (w : World) : bool :=
  bool_decide ("gate-exit" ∈ overlay_classList (dom w)).

(** The last name the handler reads from the form. *)
Definition lastName (w : World) : string :=
  Js.trim (lastNameInput_value (dom w)).

(** The password the handler reads from the form. *)
Definition password (w : World) : string :=
  Js.trim (input_value (dom w)).

(** The first invitee row, in the server's order, that the pattern made
    of the last name matches. *)
Definition firstMatch (w : World) : option Supabase.Invitee :=
  List.find (fun inv => Sql.ilike (lastName w) (Supabase.inv_last_name inv))
    (Supabase.tbl_invitees (server w)).

End Gate.
Arguments World Rsvp : clear implicits.

End AuthNamed.

(* ===================================================================== *)
(** ** rsvp.ts: what the two variants of the form share                   *)
(* ===================================================================== *)

Module RsvpPage.

Record Button := mkButton { disabled : bool; textContent : string }.

(** The [#rsvp-message] element. *)
Record MessageEl := mkMessageEl { msg_textContent : string; msg_className : string }.

Section Page.
Context {Form Rsvp : Type}.

(** The page around the form.  An element the handler looks up and
    guards with [if (el)] or [?.] is an [option]; [form_defaults] is
    what [form.reset()] restores (the markup is not part of the
    sources); [section_display] is [style.display] of the section shown
    on demand (plus-one or guest count). *)
Record Page := mkPage {
  server : Supabase.Server Rsvp;
  form : Form;
  form_defaults : Form;
  submitBtn : option Button;
  rsvp_message : option MessageEl;
  section_display : option string;
  console : list string
}.

(** [showFormMessage(type, message)] *)
Definition showFormMessage (type message : string) : M Page unit :=
  modify (fun p =>
    match rsvp_message p with
    | None => p
    | Some _ =>
        mkPage (server p) (form p) (form_defaults p) (submitBtn p)
          (Some (mkMessageEl message ("rsvp-message rsvp-message--" +:+ type)))
          (section_display p) (console p)
    end).

(** [if (submitBtn) { submitBtn.disabled = b; submitBtn.textContent = t }] *)
Definition set_submitBtn (b : bool) (t : string) : M Page unit :=
  modify (fun p =>
    mkPage (server p) (form p) (form_defaults p)
      (match submitBtn p with None => None | Some _ => Some (mkButton b t) end)
      (rsvp_message p) (section_display p) (console p)).

(** [form.reset()] *)
Definition form_reset : M Page unit :=
  modify (fun p =>
    mkPage (server p) (form_defaults p) (form_defaults p) (submitBtn p)
      (rsvp_message p) (section_display p) (console p)).

(** [if (section) section.style.display = 'none'] *)
Definition section_hide : M Page unit :=
  modify (fun p =>
    mkPage (server p) (form p) (form_defaults p) (submitBtn p) (rsvp_message p)
      (match section_display p with None => None | Some _ => Some "none" end)
      (console p)).

Definition console_error (e : string) : M Page unit :=
  modify (fun p =>
    mkPage (server p) (form p) (form_defaults p) (submitBtn p) (rsvp_message p)
      (section_display p) (e :: console p)).

Definition withServer (s' : Supabase.Server Rsvp) (p : Page) : Page :=
  mkPage s' (form p) (form_defaults p) (submitBtn p) (rsvp_message p)
    (section_display p) (console p).

(** [await supabase...]: one request to the server. *)
Definition await {A} (q : Supabase.Server Rsvp -> A * Supabase.Server Rsvp)
  : M Page A :=
  fun p => let '(a, s') := q (server p) in (Returned a, withServer s' p).

End Page.
Arguments Page : clear implicits.

End RsvpPage.

(* ===================================================================== *)
(** ** rsvp.ts, guest-name variant                                        *)
(* ===================================================================== *)

Module RsvpNamed.
Import RsvpPage.

(** supabase.ts: an RSVP row. *)
Record Rsvp := mkRsvp {
  id : option string;
  created_at : option string;
  guest_name : string;
  attending : bool;
  last_name : string;
  plus_one_attending : option bool;
  dietary_restrictions : option string;
  message : option string
}.

#[global] Instance rsvp_columns : Supabase.Columns Rsvp := fun c r =>
  if String.eqb c "guest_name" then Some (guest_name r)
  else if String.eqb c "last_name" then Some (last_name r)
  else if String.eqb c "dietary_restrictions" then dietary_restrictions r
  else if String.eqb c "message" then message r
  else if String.eqb c "id" then id r
  else None.

(** The controls of [#rsvp-form]: the value of the checked radio button
    of a group ([None] when none is checked) and the value of an input
    ([None] when the element is missing). *)
Record Form := mkForm {
  attending_checked : option string;
  guest_name_value : option string;
  dietary_restrictions_value : option string;
  rsvp_message_input_value : option string;
  plus_one_attending_checked : option string
}.

(** [el?.value.trim() ?? ''] *)
Definition trimmedValue (v : option string) : string :=
  match v with Some x => Js.trim x | None => EmptyString end.

(** [checkDuplicate(name)] *)
Definition checkDuplicate (name : string) : M (Page Form Rsvp) bool :=
  let* r := await (Supabase.selectRsvps (Supabase.ILike "guest_name" name) 1) in
  match Supabase.error r with
  | Some message => throw message
  | None => ret (0 <? length (default [] (Supabase.data r)))%nat
  end.

(** [submitRsvp(rsvp)] *)
Definition submitRsvp (rsvp : Rsvp) : M (Page Form Rsvp) unit :=
  let* r := await (Supabase.insertRsvps [rsvp]) in
  match Supabase.error r with
  | Some message => throw message
  | None => ret tt
  end.

(** The submit handler of [initRsvpForm]; [authLastName] is the last name
    read from sessionStorage when the form was set up. *)
Definition onSubmit (authLastName : option string) : M (Page Form Rsvp) unit :=
  set_submitBtn true "Sending..." ;;;
  let* p := get in
  let f := form p in
  (* Read form values *)
  let attending := bool_decide (attending_checked f = Some "true") in
  let guestName := trimmedValue (guest_name_value f) in
  let dietaryRestrictions := trimmedValue (dietary_restrictions_value f) in
  let message := trimmedValue (rsvp_message_input_value f) in
  let plusOneVal := plus_one_attending_checked f in
  let plusOneAttending :=
    if bool_decide (plusOneVal = Some "true") then Some true
    else if bool_decide (plusOneVal = Some "false") then Some false
    else None in
  (* Basic validation *)
  if negb (Js.truthy guestName) then
    showFormMessage "error" "Please fill in your name." ;;;
    set_submitBtn false "Send RSVP"
  else
    try_catch_finally
      (let* isDuplicate := checkDuplicate guestName in
       if isDuplicate then
         showFormMessage "warning"
           ("Looks like you're already on the list, " +:+ guestName
            +:+ "! If you need to make changes, reach out to us directly.") ;;;
         set_submitBtn false "Send RSVP"
       else
         submitRsvp
           (mkRsvp None None guestName attending (default EmptyString authLastName)
              plusOneAttending (Js.orUndefined dietaryRestrictions)
              (Js.orUndefined message)) ;;;
         (* Success! *)
         form_reset ;;;
         section_hide ;;;
         showFormMessage "success"
           (if attending
            then "You're on the list, " +:+ guestName +:+ "! Can't wait to see you!"
            else "We'll miss you, " +:+ guestName +:+ ". Thank you for letting us know."))
      (fun err =>
         showFormMessage "error"
           "Something went wrong. Please try again or contact us directly." ;;;
         console_error err)
      (set_submitBtn false "Send RSVP").

End RsvpNamed.

(* ===================================================================== *)
(** ** rsvp.ts, email variant                                             *)
(* ===================================================================== *)

Module RsvpEmail.
Import RsvpPage.

(** supabase.ts of this variant: an RSVP row. *)
Record Rsvp := mkRsvp {
  id : option string;
  created_at : option string;
  guest_name : string;
  email : string;
  phone : option string;
  attending : bool;
  number_of_guests : Js.number;
  dietary_restrictions : option string;
  message : option string
}.

#[global] Instance rsvp_columns : Supabase.Columns Rsvp := fun c r =>
  if String.eqb c "guest_name" then Some (guest_name r)
  else if String.eqb c "email" then Some (email r)
  else if String.eqb c "phone" then phone r
  else if String.eqb c "dietary_restrictions" then dietary_restrictions r
  else if String.eqb c "message" then message r
  else if String.eqb c "id" then id r
  else None.

Record Form := mkForm {
  attending_checked : option string;
  guest_name_value : option string;
  guest_email_value : option string;
  guest_phone_value : option string;
  number_of_guests_value : option string;
  dietary_restrictions_value : option string;
  rsvp_message_input_value : option string
}.

(** [el?.value.trim() ?? ''] *)
Definition trimmedValue (v : option string) : string :=
  match v with Some x => Js.trim x | None => EmptyString end.

(** [checkDuplicate(email)] *)
Definition checkDuplicate (email : string) : M (Page Form Rsvp) bool :=
  let* r := await (Supabase.selectRsvps (Supabase.Eq "email" email) 1) in
  match Supabase.error r with
  | Some message => throw message
  | None => ret (0 <? length (default [] (Supabase.data r)))%nat
  end.

(** [submitRsvp(rsvp)] *)
Definition submitRsvp (rsvp : Rsvp) : M (Page Form Rsvp) unit :=
  let* r := await (Supabase.insertRsvps [rsvp]) in
  match Supabase.error r with
  | Some message => throw message
  | None => ret tt
  end.

(** The submit handler of [initRsvpForm]. *)
Definition onSubmit : M (Page Form Rsvp) unit :=
  set_submitBtn true "Sending..." ;;;
  let* p := get in
  let f := form p in
  (* Read form values *)
  let attending := bool_decide (attending_checked f = Some "true") in
  let guestName := trimmedValue (guest_name_value f) in
  let email := trimmedValue (guest_email_value f) in
  let phone := trimmedValue (guest_phone_value f) in
  let numberOfGuests := Js.parseInt (default "1" (number_of_guests_value f)) in
  let dietaryRestrictions := trimmedValue (dietary_restrictions_value f) in
  let message := trimmedValue (rsvp_message_input_value f) in
  (* Basic validation *)
  if negb (Js.truthy guestName) || negb (Js.truthy email) then
    showFormMessage "error" "Please fill in your name and email." ;;;
    set_submitBtn false "Send RSVP"
  else
    try_catch_finally
      (let* isDuplicate := checkDuplicate email in
       if isDuplicate then
         showFormMessage "success"
           ("You're already on the list, " +:+ guestName
            +:+ "! If you need to make changes, reach out to us directly.") ;;;
         set_submitBtn false "Send RSVP"
       else
         submitRsvp
           (mkRsvp None None guestName email (Js.orUndefined phone) attending
              (if attending then numberOfGuests else Js.Num 0)
              (Js.orUndefined dietaryRestrictions) (Js.orUndefined message)) ;;;
         (* Success! *)
         form_reset ;;;
         section_hide ;;;
         showFormMessage "success"
           (if attending
            then "🎉 You're on the list, " +:+ guestName +:+ "! Can't wait to see you!"
            else "We'll miss you, " +:+ guestName +:+ ". Thank you for letting us know."))
      (fun err =>
         showFormMessage "error"
           "Something went wrong. Please try again or contact us directly." ;;;
         console_error err)
      (set_submitBtn false "Send RSVP").

End RsvpEmail.

(* ===================================================================== *)
(** ** admin.ts: the RSVP count of the invitees tab                       *)
(* ===================================================================== *)

Module Admin.
Import Supabase.

(** One pass of the loop of [renderDashboard] over [rsvps]. *)
Definition countRsvp (rsvpCounts : gmap string nat) (r : RsvpNamed.Rsvp)
  : gmap string nat :=
  if Js.truthy (RsvpNamed.last_name r) then
    let key := Js.toLowerCase (RsvpNamed.last_name r) in
    <[key := (default 0 (rsvpCounts !! key) + 1)%nat]> rsvpCounts
  else rsvpCounts.

(** [renderDashboard]: build rsvp counts per last_name, from
    [new Map()]. *)
Definition rsvpCounts (rsvps : list RsvpNamed.Rsvp) : gmap string nat :=
  fold_left countRsvp rsvps ∅.

(** What a row of the guest list shows. *)
Record InviteeRow := mkInviteeRow {
  row_id : option string;
  row_last_name : string;
  row_has_plus_one : bool;
  row_plus_one_name : string;
  row_rsvdCount : nat
}.

(** [renderInviteesTab(invitees, rsvpCounts)]: the rows of the table. *)
Definition renderInviteesTab (invitees : list Invitee)
    (rsvpCounts : gmap string nat) : list InviteeRow :=
  List.map (fun inv =>
    let rsvdCount := default 0%nat (rsvpCounts !! Js.toLowerCase (inv_last_name inv)) in
    mkInviteeRow (inv_id inv) (inv_last_name inv) (has_plus_one inv)
      (default EmptyString (plus_one_name inv)) rsvdCount) invitees.

End Admin.

(* ===================================================================== *)
(** ** Notions of the specification                                       *)
(* ===================================================================== *)

Module Spec.

(** Two names are equal up to case. *)
Definition sameIgnoringCase (a b : string) : bool :=
  String.eqb (Js.toLowerCase a) (Js.toLowerCase b).

(** The next [n] requests reach the server and are answered. *)
Definition goThrough {Rsvp} (n : nat) (s : Supabase.Server Rsvp) : bool :=
  forallb (fun f => match f with None => true | Some _ => false end)
    (take n (Supabase.faults s)).

(** The server after an answered insert of one row. *)
Definition inserted {Rsvp} (r : Rsvp) (s : Supabase.Server Rsvp) : Supabase.Server Rsvp :=
Supabase.mkServer (Supabase.tbl_rsvps s ++ [r]) (Supabase.tbl_invitees s)
  (Supabase.InsertRsvps [r] :: Supabase.requests s) (tl (Supabase.faults s)).

End Spec.

(* ===================================================================== *)
(** ** Concrete pages and worlds                                          *)
(* ===================================================================== *)

Module Scenario.

(** The configured site password of the scenarios. *)
Definition secret : string := "alpine".

Definition invitee (lastName : string) : Supabase.Invitee :=
  Supabase.mkInvitee None None lastName false None.

(** A freshly shown gate with the two inputs filled in, in front of a
    server that holds the given guest list and answers every request. *)
Definition gate (invitees : list Supabase.Invitee) (lastName password : string)
  : AuthNamed.World RsvpNamed.Rsvp :=
  AuthNamed.mkWorld ∅ (Supabase.mkServer [] invitees [] [])
    (AuthNamed.mkDom lastName password EmptyString false "Enter" ∅ ∅ ∅) [].

Definition namedRsvp (guestName lastName : string) : RsvpNamed.Rsvp :=
  RsvpNamed.mkRsvp None None guestName true lastName None None None.

Definition emailRsvp (guestName email : string) : RsvpEmail.Rsvp :=
  RsvpEmail.mkRsvp None None guestName email None true (Js.Num 1) None None.

(** The guest-name form with a name typed in, all elements present. *)
Definition namedPage (rows : list RsvpNamed.Rsvp) (guestName : string)
  : RsvpPage.Page RsvpNamed.Form RsvpNamed.Rsvp :=
  RsvpPage.mkPage (Supabase.mkServer rows [] [] [])
    (RsvpNamed.mkForm (Some "true") (Some guestName) (Some EmptyString)
       (Some EmptyString) None)
    (RsvpNamed.mkForm None (Some EmptyString) (Some EmptyString)
       (Some EmptyString) None)
    (Some (RsvpPage.mkButton false "Send RSVP"))
    (Some (RsvpPage.mkMessageEl EmptyString EmptyString))
    (Some "none") [].

(** The email form with name, email and guest count typed in. *)
Definition emailPage (rows : list RsvpEmail.Rsvp) (guestName email guests : string)
  : RsvpPage.Page RsvpEmail.Form RsvpEmail.Rsvp :=
  RsvpPage.mkPage (Supabase.mkServer rows [] [] [])
    (RsvpEmail.mkForm (Some "true") (Some guestName) (Some email)
       (Some EmptyString) (Some guests) (Some EmptyString) (Some EmptyString))
    (RsvpEmail.mkForm None (Some EmptyString) (Some EmptyString)
       (Some EmptyString) (Some "1") (Some EmptyString) (Some EmptyString))
    (Some (RsvpPage.mkButton false "Send RSVP"))
    (Some (RsvpPage.mkMessageEl EmptyString EmptyString))
    (Some "block") [].

End Scenario.

(* ===================================================================== *)
(** ** auth.ts, password-only variant: the gate form                      *)
(* ===================================================================== *)

Module AuthForm.

(** The elements [showPasswordGate] creates and its submit handler
    touches. *)
Record Dom := mkDom {
  input_value : string;
  error_textContent : string;
  overlay_classList : gset string;
  input_classList : gset string
}.

Record World := mkWorld {
  session : gmap string string;
  dom : Dom
}.

Section Gate.
(** [import.meta.env.VITE_SITE_PASSWORD] *)
Variable CORRECT_PASSWORD : string.

(** [attemptLogin(password)] on the session store of the page. *)
Definition attemptLogin (password : string) : M World bool :=
  fun w =>
    let '(ok, store) := Auth.attemptLogin CORRECT_PASSWORD password (session w) in
    (Returned ok, mkWorld store (dom w)).

(** The submit handler of the gate form. *)
Definition onSubmit : M World unit :=
  let* w := get in
  let password := Js.trim (input_value (dom w)) in
  let* ok := attemptLogin password in
  if ok then
    (* Correct - animate out and resolve *)
    modify (fun w =>
      mkWorld (session w)
        (mkDom (input_value (dom w)) (error_textContent (dom w))
           ({["gate-exit"]} ∪ overlay_classList (dom w)) (input_classList (dom w))))
  else
    (* Wrong - shake and show error *)
    modify (fun w =>
      mkWorld (session w)
        (mkDom EmptyString "Incorrect password. Try again!"
           (overlay_classList (dom w)) ({["gate-shake"]} ∪ input_classList (dom w)))).

(** The gate is leaving the page. *)
Definition opened (w : World) : bool :=
  bool_decide ("gate-exit" ∈ overlay_classList (dom w)).

End Gate.

End AuthForm.

(* ===================================================================== *)
(** ** admin.ts: the admin password                                       *)
(* ===================================================================== *)

Module AdminAuth.
Section Gate.
(** [import.meta.env.VITE_ADMIN_PASSWORD] *)
Variable ADMIN_PASSWORD : string.

Definition ADMIN_STORAGE_KEY : string := "wedding_admin_auth".

Definition isAdminAuthenticated (store : gmap string string) : bool :=
  bool_decide (Storage.getItem ADMIN_STORAGE_KEY store = Some "true").

Definition adminLogin (password : string) (store : gmap string string)
  : bool * gmap string string :=
  if String.eqb password ADMIN_PASSWORD
  then (true, Storage.setItem ADMIN_STORAGE_KEY "true" store)
  else (false, store).

Definition adminLogout (store : gmap string string) : gmap string string :=
  Storage.removeItem ADMIN_STORAGE_KEY store.

End Gate.
End AdminAuth.

(* ===================================================================== *)
(** ** admin.ts: the statistics and the invitee actions                   *)
(* ===================================================================== *)

Module AdminPage.
Import Supabase.

(** The three numbers of [renderStats(rsvps)]. *)
Record Stats := mkStats {
  stat_total : nat;
  stat_attending : nat;
  stat_notAttending : nat
}.

Definition renderStats (rsvps : list RsvpNamed.Rsvp) : Stats :=
  let attending := List.filter (fun r => RsvpNamed.attending r) rsvps in
  let notAttending := List.filter (fun r => negb (RsvpNamed.attending r)) rsvps in
  mkStats (length rsvps) (length attending) (length notAttending).

Inductive Tab := RsvpsTab | InviteesTab.

(** The requests of [renderDashboard] and [wireInviteesTab]. *)
Inductive Request :=
  | FetchRsvps
  | FetchInvitees
  | InsertInvitee (row : Invitee)
  | UpdateInvitee (hasPlusOne : bool) (plusOneName : option string) (id : string)
  | DeleteInvitee (id : string).

(** What [#admin-content] holds: the loading line, the error line, or the
    navigation with one of the two tabs. *)
Inductive View := ViewLoading | ViewFailed | ViewTab (tab : Tab).

(** The inputs of one row of the guest list as the page holds them:
    [data-id] of its buttons, the check box and the name input. *)
Record RowInputs := mkRowInputs {
  data_id : string;
  has_plus_one_checked : bool;
  plus_one_name_value : string;
  plus_one_name_disabled : bool
}.

(** [data-id="${inv.id}"]; ids are the store's own (uuids). *)
Definition dataId (inv : Invitee) : string := default "undefined" (inv_id inv).

Definition doubleQuote : ascii := ascii_of_nat 34.

(** The value an input gets from [value="${s}"] once the template is
    assigned to [innerHTML]: [s] is pasted unescaped, so the value ends at
    the first double quote of [s].  (What follows the quote is read as
    further attributes; character references starting with [&] are
    decoded and a text input drops line breaks.  None of this is modelled:
    [attributeSafe] tells the texts that come through as they are.) *)
Fixpoint attributeValue (s : string) : string :=
  match s with
  | EmptyString => EmptyString
  | String c r =>
      if Ascii.eqb c doubleQuote then EmptyString else String c (attributeValue r)
  end.

(** No double quote, no [&], no NUL and no line break. *)
Fixpoint attributeSafe (s : string) : bool :=
  match s with
  | EmptyString => true
  | String c r =>
      let n := nat_of_ascii c in
      negb ((n =? 34)%nat || (n =? 38)%nat || (n =? 0)%nat || (n =? 10)%nat
            || (n =? 13)%nat)
      && attributeSafe r
  end.

(** No [<]: pasted into [<td>${s}</td>], the text adds no element to the
    row. *)
Fixpoint markupFree (s : string) : bool :=
  match s with
  | EmptyString => true
  | String c r => negb (nat_of_ascii c =? 60)%nat && markupFree r
  end.

(** The inputs [renderInviteesTab] writes for an invitee: the check box
    and the name input of the row, in a row whose last-name cell adds no
    input of its own (see [rendersAsWritten]). *)
Definition renderedInputs (inv : Invitee) : RowInputs :=
  mkRowInputs (dataId inv) (has_plus_one inv)
    (attributeValue (default EmptyString (plus_one_name inv)))
    (negb (has_plus_one inv)).

(** The fields of [inv] come through the template as they are: the last
    name is plain text and the name input shows the whole plus-one name. *)
Definition rendersAsWritten (inv : Invitee) : bool :=
  markupFree (inv_last_name inv)
  && attributeSafe (default EmptyString (plus_one_name inv)).


(** The admin page in front of the store: the two tables, the requests
    sent so far (latest first) and the fate of the coming ones (as for
    [Supabase.Server]); what [#admin-content] shows, the add form of the
    invitees tab ([None] for an element that is not in the document) and
    the error line under it; the dialogs shown, the calls of
    [renderDashboard] (latest first) and the console. *)
Record World := mkWorld {
  tbl_rsvps : list RsvpNamed.Rsvp;
  tbl_invitees : list Invitee;
  requests : list Request;
  faults : list (option string);
  view : View;
  new_last_name : option string;
  new_has_plus_one : option bool;
  new_plus_one_name : option string;
  add_invitee_error : option string;
  alerts : list string;
  confirms : list string;
  rendered : list Tab;
  console : list string
}.

Definition withStore (rs : list RsvpNamed.Rsvp) (invs : list Invitee)
    (qs : list Request) (fs : list (option string)) (w : World) : World :=
  mkWorld rs invs qs fs (view w) (new_last_name w) (new_has_plus_one w)
    (new_plus_one_name w) (add_invitee_error w) (alerts w) (confirms w) (rendered w)
    (console w).

(** One request: it is logged and consumes the head of [faults]; a fault
    leaves the tables alone, otherwise [apply] changes the invitee table. *)
Definition send (q : Request) (apply : list Invitee -> list Invitee)
  : M World (Response unit) :=
  fun w =>
    match hd None (faults w) with
    | Some message =>
        (Returned (mkResponse None (Some message)),
         withStore (tbl_rsvps w) (tbl_invitees w) (q :: requests w) (tl (faults w)) w)
    | None =>
        (Returned (mkResponse None None),
         withStore (tbl_rsvps w) (apply (tbl_invitees w)) (q :: requests w)
           (tl (faults w)) w)
    end.

(** [from('invitees').insert([row])] *)
Definition insertInvitee (row : Invitee) : M World (Response unit) :=
  send (InsertInvitee row) (fun t => (t ++ [row])%list).

(** [from('invitees').update({ has_plus_one, plus_one_name }).eq('id', id)] *)
Definition updateInvitee (hasPlusOne : bool) (plusOneName : option string)
    (id : string) : M World (Response unit) :=
  send (UpdateInvitee hasPlusOne plusOneName id)
    (List.map (fun inv =>
       if holds (Eq "id" id) inv
       then mkInvitee (inv_id inv) (inv_created_at inv) (inv_last_name inv)
              hasPlusOne plusOneName
       else inv)).

(** [from('invitees').delete().eq('id', id)] *)
Definition deleteInvitee (id : string) : M World (Response unit) :=
  send (DeleteInvitee id) (List.filter (fun inv => negb (holds (Eq "id" id) inv))).

(** [content.innerHTML = ...]: what was in [#admin-content] is replaced.
    The add form and its error line are in the document only when the
    invitees tab is drawn, and then they are new and empty. *)
Definition set_content (v : View) : M World unit :=
  modify (fun w =>
    let drawn := match v with ViewTab InviteesTab => true | _ => false end in
    mkWorld (tbl_rsvps w) (tbl_invitees w) (requests w) (faults w) v
      (if drawn then Some EmptyString else None)
      (if drawn then Some false else None)
      (if drawn then Some EmptyString else None)
      (if drawn then Some EmptyString else None)
      (alerts w) (confirms w) (rendered w) (console w)).

Definition console_error (e : string) : M World unit :=
  modify (fun w =>
    mkWorld (tbl_rsvps w) (tbl_invitees w) (requests w) (faults w) (view w)
      (new_last_name w) (new_has_plus_one w) (new_plus_one_name w)
      (add_invitee_error w) (alerts w) (confirms w) (rendered w) (e :: console w)).

(** The call of [renderDashboard(tab)] is noted. *)
Definition called (tab : Tab) : M World unit :=
  modify (fun w =>
    mkWorld (tbl_rsvps w) (tbl_invitees w) (requests w) (faults w) (view w)
      (new_last_name w) (new_has_plus_one w) (new_plus_one_name w)
      (add_invitee_error w) (alerts w) (confirms w) (tab :: rendered w) (console w)).

(** [await Promise.all([fetchRsvps(), fetchInvitees()])]: both requests
    are sent, and a failed one throws its message (of the two messages the
    first is kept here; in the browser, the one that arrives first).  The
    rows fetched are drawn, not kept: the page state holds no rows. *)
Definition fetchBoth : M World unit :=
  let* r1 := send FetchRsvps (fun t => t) in
  let* r2 := send FetchInvitees (fun t => t) in
  match error r1, error r2 with
  | Some message, _ => throw message
  | None, Some message => throw message
  | None, None => ret tt
  end.

(** [renderDashboard(activeTab)], for a page that has [#admin-content]. *)
Definition renderDashboard (activeTab : Tab) : M World unit :=
  called activeTab ;;;
  set_content ViewLoading ;;;
  try_catch
    (fetchBoth ;;;
     set_content (ViewTab activeTab))
    (fun err =>
       set_content ViewFailed ;;;
       console_error err).

(** [alert(message)] *)
Definition alert (message : string) : M World unit :=
  modify (fun w =>
    mkWorld (tbl_rsvps w) (tbl_invitees w) (requests w) (faults w) (view w)
      (new_last_name w) (new_has_plus_one w) (new_plus_one_name w)
      (add_invitee_error w) (message :: alerts w) (confirms w) (rendered w)
      (console w)).

(** [confirm(message)]: the dialog is shown; [answer] is what the user
    clicks. *)
Definition confirm (message : string) (answer : bool) : M World bool :=
  fun w =>
    (Returned answer,
     mkWorld (tbl_rsvps w) (tbl_invitees w) (requests w) (faults w) (view w)
       (new_last_name w) (new_has_plus_one w) (new_plus_one_name w)
       (add_invitee_error w) (alerts w) (message :: confirms w) (rendered w)
       (console w)).

(** [if (addError) addError.textContent = t] *)
Definition set_addError (t : string) : M World unit :=
  modify (fun w =>
    mkWorld (tbl_rsvps w) (tbl_invitees w) (requests w) (faults w) (view w)
      (new_last_name w) (new_has_plus_one w) (new_plus_one_name w)
      (match add_invitee_error w with None => None | Some _ => Some t end)
      (alerts w) (confirms w) (rendered w) (console w)).

(** The double quote of the dialog text. *)
Definition quote : string := String doubleQuote EmptyString.

(** [value.trim() || null] *)
Definition trimmedOrNull (v : string) : option string := Js.orUndefined (Js.trim v).

(** The submit handler of the add-invitee form. *)
Definition onAdd : M World unit :=
  let* w := get in
  let lastName := option_map Js.trim (new_last_name w) in
  let hasPlusOne := default false (new_has_plus_one w) in
  let plusOneName :=
    match new_plus_one_name w with
    | Some v => trimmedOrNull v
    | None => None
    end in
  match lastName with
  | None => ret tt
  | Some lastName =>
      if negb (Js.truthy lastName) then ret tt
      else
        let* r := insertInvitee (mkInvitee None None lastName hasPlusOne plusOneName) in
        match error r with
        | Some message => set_addError ("Error: " +:+ message)
        | None => renderDashboard InviteesTab
        end
  end.

(** The click handler of a row's Save button. *)
Definition onSave (row : RowInputs) : M World unit :=
  let id := data_id row in
  let hasPlusOne := has_plus_one_checked row in
  let plusOneName := trimmedOrNull (plus_one_name_value row) in
  let* r := updateInvitee hasPlusOne plusOneName id in
  match error r with
  | Some message => alert ("Save failed: " +:+ message)
  | None => renderDashboard InviteesTab
  end.

(** The click handler of a row's Delete button; [invitees] is the list
    the tab was rendered from. *)
Definition onDelete (invitees : list Invitee) (row : RowInputs) (answer : bool)
  : M World unit :=
  let id := data_id row in
  let inv := List.find (fun i => bool_decide (inv_id i = Some id)) invitees in
  let* ok :=
    confirm ("Delete invitee " +:+ quote
               +:+ match inv with
                   | Some i => inv_last_name i
                   | None => "undefined"
                   end
               +:+ quote +:+ "?") answer in
  if negb ok then ret tt
  else
    let* r := deleteInvitee id in
    match error r with
    | Some message => alert ("Delete failed: " +:+ message)
    | None => renderDashboard InviteesTab
    end.

End AdminPage.

(* ===================================================================== *)
(** ** rsvp.ts, guest-name variant: setting the form up                   *)
(* ===================================================================== *)

Module RsvpInit.
Import RsvpPage.

(** The page of the form with the [#plus-one-name] span beside it
    ([None] when the span is missing). *)
Record InitPage := mkInitPage {
  page : Page RsvpNamed.Form RsvpNamed.Rsvp;
  plusOneNameSpan_textContent : option string
}.

Definition onPage {A} (c : M (Page RsvpNamed.Form RsvpNamed.Rsvp) A) : M InitPage A :=
  fun ip => let '(a, p') := c (page ip) in
            (a, mkInitPage p' (plusOneNameSpan_textContent ip)).

(** [if (section) section.style.display = 'block'] *)
Definition section_show : M (Page RsvpNamed.Form RsvpNamed.Rsvp) unit :=
  modify (fun p =>
    mkPage (server p) (form p) (form_defaults p) (submitBtn p) (rsvp_message p)
      (match section_display p with None => None | Some _ => Some "block" end)
      (console p)).

(** [if (plusOneNameSpan) plusOneNameSpan.textContent = t] *)
Definition set_plusOneNameSpan (t : string) : M InitPage unit :=
  modify (fun ip =>
    mkInitPage (page ip)
      (match plusOneNameSpan_textContent ip with None => None | Some _ => Some t end)).

(** [s || d] for an optional string. *)
Definition orElse (s : option string) (d : string) : string :=
  match s with
  | Some x => if Js.truthy x then x else d
  | None => d
  end.

(** The part of [initRsvpForm] before the submit listener: read the last
    name stored at login and look the invitee up to decide whether the
    plus-one section is shown.  The callback of the lookup is run where
    the request is made; the value returned is [authLastName], which the
    submit handler keeps. *)
Definition initRsvpForm (store : gmap string string) : M InitPage (option string) :=
  (* Read the last name stored at login *)
  let authLastName := Storage.getItem "wedding_auth_last_name" store in
  (* Look up invitee to determine plus-one eligibility *)
  (if Js.truthy (default EmptyString authLastName) then
     let* r := onPage (await (Supabase.selectInvitees
                                (Supabase.ILike "last_name"
                                   (default EmptyString authLastName)) 1)) in
     let* ip := get in
     match Supabase.data r with
     | Some (invitee :: _) =>
         match Supabase.has_plus_one invitee, section_display (page ip) with
         | true, Some _ =>
             set_plusOneNameSpan (orElse (Supabase.plus_one_name invitee) "Plus One") ;;;
             onPage section_show
         | _, _ => ret tt
         end
     | _ => ret tt
     end
   else ret tt) ;;;
  ret authLastName.

End RsvpInit.

(* ===================================================================== *)
(** ** router.ts and the start of main.ts                                 *)
(* ===================================================================== *)

Module Router.

Record Route := mkRoute { path : string; template : string }.

Definition routes : list Route :=
  [ mkRoute EmptyString "home";
    mkRoute "details" "details";
    mkRoute "rsvp" "rsvp";
    mkRoute "registry" "registry";
    mkRoute "admin" "admin" ].

(** [s.slice(1)] *)
Definition slice1 (s : string) : string :=
  match s with EmptyString => EmptyString | String _ r => r end.

(** [s.startsWith('/')] *)
Definition startsWithSlash (s : string) : bool :=
  match s with String "/" _ => true | _ => false end.

(** [getCurrentRoute()], from [window.location.hash]. *)
Definition getCurrentRoute (location_hash : string) : string :=
  let hash := slice1 location_hash in
  if startsWithSlash hash then slice1 hash else hash.

(** An element of the document as the router sees it. *)
Record Element := mkElement {
  el_id : option string;
  is_anchor : bool;
  href : string;
  classList : gset string;
  style_display : string
}.

(** The first element of the document a selector matches, changed by [f]. *)
Fixpoint onFirst (sel : Element -> bool) (f : Element -> Element)
    (doc : list Element) : list Element :=
  match doc with
  | [] => []
  | e :: doc' => if sel e then f e :: doc' else e :: onFirst sel f doc'
  end.

Definition hasClass (c : string) (e : Element) : bool := bool_decide (c ∈ classList e).

Definition anchorTo (h : string) (e : Element) : bool :=
  is_anchor e && String.eqb (href e) h.

Definition classList_remove (c : string) (e : Element) : Element :=
  mkElement (el_id e) (is_anchor e) (href e) (classList e ∖ {[c]}) (style_display e).

Definition classList_add (c : string) (e : Element) : Element :=
  mkElement (el_id e) (is_anchor e) (href e) ({[c]} ∪ classList e) (style_display e).

Definition set_display (d : string) (e : Element) : Element :=
  mkElement (el_id e) (is_anchor e) (href e) (classList e) d.

(** [updateActiveNav(path)] *)
Definition updateActiveNav (path : string) (doc : list Element) : list Element :=
  (* Remove active class from all links *)
  let doc := List.map (fun e => if hasClass "nav-link" e
                                then classList_remove "active" e else e) doc in
  (* Add active class to current link *)
  if existsb (anchorTo ("#/" +:+ path)) doc
  then onFirst (anchorTo ("#/" +:+ path)) (classList_add "active") doc
  else onFirst (anchorTo "/") (classList_add "active") doc.

(** [showPage(pageName)] (the scroll to the top is left out). *)
Definition showPage (pageName : string) (doc : list Element) : list Element :=
  (* Hide all pages *)
  let doc := List.map (fun e => if hasClass "page-content" e
                                then set_display "none" e else e) doc in
  (* Show requested page *)
  onFirst (fun e => bool_decide (el_id e = Some ("page-" +:+ pageName)))
    (set_display "block") doc.

(** The route [navigate] settles on: the matching one, or home. *)
Definition currentRoute (location_hash : string) : Route :=
  let currentPath := getCurrentRoute location_hash in
  default (hd (mkRoute EmptyString "home") routes)
    (List.find (fun r => String.eqb (path r) currentPath) routes).

(** [navigate()] *)
Definition navigate (location_hash : string) (doc : list Element) : list Element :=
  let route := currentRoute location_hash in
  showPage (template route) (updateActiveNav (path route) doc).

(** main.ts, [init]: [hash.slice(1).replace(/^\//, '')]. *)
Definition initCurrentPath (location_hash : string) : string :=
  match slice1 location_hash with
  | String "/" r => r
  | h => h
  end.

(** main.ts, [init]: whether the password gate is shown before anything
    else (the name-verified [isAuthenticated]). *)
Definition showsGate (location_hash : string) (store : gmap string string) : bool :=
  negb (String.eqb (initCurrentPath location_hash) "admin")
  && negb (AuthNamed.isAuthenticated store).

End Router.

(* ===================================================================== *)
(** ** main.ts: the countdown                                             *)
(* ===================================================================== *)

Module Countdown.
Local Open Scope Z_scope.

Record CountdownTime := mkCountdownTime {
  days : Z;
  hours : Z;
  minutes : Z;
  seconds : Z
}.

(** [calculateTimeRemaining()], from the two times in milliseconds
    ([WEDDING_DATE.getTime()] and [new Date().getTime()]); on these whole
    numbers the arithmetic of doubles is exact. *)
Definition calculateTimeRemaining (weddingTime now : Z) : CountdownTime :=
  let difference := weddingTime - now in
  (* If the wedding has passed *)
  if difference <? 0 then mkCountdownTime 0 0 0 0
  else
    let days := difference / (1000 * 60 * 60 * 24) in
    let hours := Z.rem difference (1000 * 60 * 60 * 24) / (1000 * 60 * 60) in
    let minutes := Z.rem difference (1000 * 60 * 60) / (1000 * 60) in
    let seconds := Z.rem difference (1000 * 60) / 1000 in
    mkCountdownTime days hours minutes seconds.

End Countdown.

(* ===================================================================== *)
(** ** More concrete pages                                                *)
(* ===================================================================== *)

Module Cases.

(** The admin password of the scenarios. *)
Definition adminSecret : string := "summit".

(** A stored invitee row. *)
Definition stored (id lastName : string) (plusOne : bool) (name : option string)
  : Supabase.Invitee :=
  Supabase.mkInvitee (Some id) (Some "2026-01-01T00:00:00Z") lastName plusOne name.

(** The admin page in front of the given tables, with the add form filled
    in and a server that answers. *)
Definition adminWorld (rsvps : list RsvpNamed.Rsvp) (invitees : list Supabase.Invitee)
    (lastName : string) (plusOne : bool) (name : string) : AdminPage.World :=
  AdminPage.mkWorld rsvps invitees [] [] (AdminPage.ViewTab AdminPage.InviteesTab)
    (Some lastName) (Some plusOne) (Some name) (Some EmptyString) [] [] [] [].

(** The password-only gate with a password typed in. *)
Definition simpleGate (password : string) : AuthForm.World :=
  AuthForm.mkWorld ∅ (AuthForm.mkDom password EmptyString ∅ ∅).

(** The form page with the plus-one span, in front of a guest list. *)
Definition initPage (invitees : list Supabase.Invitee) : RsvpInit.InitPage :=
  RsvpInit.mkInitPage
    (RsvpPage.withServer (Supabase.mkServer [] invitees [] [])
       (Scenario.namedPage [] EmptyString))
    (Some EmptyString).

(** A small document: two navigation links and two pages. *)
Definition document : list Router.Element :=
  [ Router.mkElement None true "/" {["nav-link"; "active"]} EmptyString;
    Router.mkElement None true "#/rsvp" {["nav-link"]} EmptyString;
    Router.mkElement (Some "page-home") false EmptyString {["page-content"]} "block";
    Router.mkElement (Some "page-rsvp") false EmptyString {["page-content"]} "none" ].

(** The gate of [Scenario.gate] in front of a server that fails the next
    request. *)
Definition gateOffline (invitees : list Supabase.Invitee) (lastName password : string)
  : AuthNamed.World RsvpNamed.Rsvp :=
  AuthNamed.mkWorld ∅ (Supabase.mkServer [] invitees [] [Some "Failed to fetch"])
    (AuthNamed.mkDom lastName password EmptyString false "Enter" ∅ ∅ ∅) [].


(** The guest list of the scenarios. *)
Definition guestList : list Supabase.Invitee :=
  [ stored "i1" "nguyen" true (Some "Sam"); stored "i2" "smith" false None ].

(** The form of [Scenario.namedPage] in front of a server that fails the
    next request. *)
Definition namedOffline (guestName : string)
  : RsvpPage.Page RsvpNamed.Form RsvpNamed.Rsvp :=
  RsvpPage.withServer (Supabase.mkServer [] [] [] [Some "Failed to fetch"])
    (Scenario.namedPage [] guestName).

(** The email form with "not attending" chosen. *)
Definition emailDeclined (guestName email guests : string)
  : RsvpPage.Page RsvpEmail.Form RsvpEmail.Rsvp :=
  RsvpPage.mkPage (Supabase.mkServer [] [] [] [])
    (RsvpEmail.mkForm (Some "false") (Some guestName) (Some email)
       (Some EmptyString) (Some guests) (Some EmptyString) (Some EmptyString))
    (RsvpEmail.mkForm None (Some EmptyString) (Some EmptyString)
       (Some EmptyString) (Some "1") (Some EmptyString) (Some EmptyString))
    (Some (RsvpPage.mkButton false "Send RSVP"))
    (Some (RsvpPage.mkMessageEl EmptyString EmptyString))
    (Some "block") [].

End Cases.

(* ===================================================================== *)
(** ** What a run of a form handler keeps                                 *)
(* ===================================================================== *)

Module Runs.
Import RsvpPage.

(** The handler returns (it does not throw), the submit button, if there
    is one, is enabled again and reads [Send RSVP], the RSVP table is as
    before or one row longer, the invitee table is as before, and at most
    two requests were sent. *)
Definition recovers {Form Rsvp} (c : M (Page Form Rsvp) unit) (p : Page Form Rsvp) : Prop :=
  result c p = Returned tt
  /\ submitBtn (exec c p)
     = match submitBtn p with
       | None => None
       | Some _ => Some (mkButton false "Send RSVP")
       end
  /\ (Supabase.tbl_rsvps (server (exec c p)) = Supabase.tbl_rsvps (server p)
      \/ exists r, Supabase.tbl_rsvps (server (exec c p))
                   = (Supabase.tbl_rsvps (server p) ++ [r])%list)
  /\ Supabase.tbl_invitees (server (exec c p)) = Supabase.tbl_invitees (server p)
  /\ (length (Supabase.requests (server (exec c p)))
      <= length (Supabase.requests (server p)) + 2)%nat.

End Runs.

(* ===================================================================== *)
(** ** The model at work                                                  *)
(* ===================================================================== *)

Example trim_example : Js.trim "  Rivera  " = "Rivera".
Proof. reflexivity. Qed.

Example parseInt_examples :
  Js.parseInt " 42px" = Js.Num 42 /\ Js.parseInt "-0x1f" = Js.Num (-31)
  /\ Js.parseInt EmptyString = Js.NaN /\ Js.parseInt "two" = Js.NaN.
Proof. repeat split; reflexivity. Qed.

Example ilike_examples :
  Sql.ilike "Smith" "smith" = true /\ Sql.ilike "sm_th" "Smyth" = true
  /\ Sql.ilike "s*" "Smith" = true /\ Sql.ilike "smith" "smiths" = false
  /\ Sql.ilike "a\_b" "a_b" = true /\ Sql.ilike "a\_b" "axb" = false.
Proof. repeat split; reflexivity. Qed.

(** The password-only gate: a wrong guess, then the right password. *)
Example attemptLogin_example :
  Auth.attemptLogin Scenario.secret "guess" ∅ = (false, ∅)
  /\ Auth.isAuthenticated
       (snd (Auth.attemptLogin Scenario.secret "alpine" ∅)) = true.
Proof. split; reflexivity. Qed.

(** A first RSVP goes in; the same name again, in another casing, does
    not. *)
Example rsvp_twice_example :
  Supabase.tbl_rsvps
    (RsvpPage.server
       (exec (RsvpNamed.onSubmit (Some "rivera")) (Scenario.namedPage [] "Alex Rivera")))
  = [RsvpNamed.mkRsvp None None "Alex Rivera" true "rivera" None None None]
  /\ Supabase.tbl_rsvps
       (RsvpPage.server
          (exec (RsvpNamed.onSubmit (Some "rivera"))
             (Scenario.namedPage
                [RsvpNamed.mkRsvp None None "Alex Rivera" true "rivera" None None None]
                "alex rivera")))
     = [RsvpNamed.mkRsvp None None "Alex Rivera" true "rivera" None None None].
Proof. split; reflexivity. Qed.

(** A request the server does not answer: the generic error is shown, the
    button is enabled again and nothing is inserted. *)
Example rsvp_fault_example :
  let p := RsvpPage.withServer (Supabase.mkServer [] [] [] [Some "Failed to fetch"])
             (Scenario.namedPage [] "Alex Rivera") in
  let p' := exec (RsvpNamed.onSubmit None) p in
  Supabase.tbl_rsvps (RsvpPage.server p') = []
  /\ RsvpPage.console p' = ["Failed to fetch"]
  /\ RsvpPage.submitBtn p' = Some (RsvpPage.mkButton false "Send RSVP")
  /\ RsvpPage.rsvp_message p'
     = Some (RsvpPage.mkMessageEl
               "Something went wrong. Please try again or contact us directly."
               "rsvp-message rsvp-message--error").
Proof. repeat split; reflexivity. Qed.

(** Two RSVPs under "Nguyen" in different casings count for the invitee
    "nguyen". *)
Example rsvd_count_example :
  List.map Admin.row_rsvdCount
    (Admin.renderInviteesTab [Scenario.invitee "nguyen"; Scenario.invitee "smith"]
       (Admin.rsvpCounts
          [Scenario.namedRsvp "Sam" "Nguyen"; Scenario.namedRsvp "Kim" "NGUYEN";
           Scenario.namedRsvp "Alex Rivera" "rivera"]))
  = [2%nat; 0%nat].
Proof. vm_compute. reflexivity. Qed.

(* ===================================================================== *)
(** ** Facts about the pattern match                                      *)
(* ===================================================================== *)

Section SqlFacts.
Import Sql.

Lemma like_percent_here (p t : string) :
    like p t = true -> like (String percent p) t = true.
Proof.
    intros H. destruct t as [|x t]; simpl; rewrite H; reflexivity.
Qed.

Lemma like_percent_skip (p : string) (x : ascii) (t : string) :
    like (String percent p) t = true -> like (String percent p) (String x t) = true.
Proof.
    intros H. simpl in *. rewrite H. apply orb_true_r.
Qed.

  (** [%] alone matches every text. *)
Lemma like_percent_all (t : string) : like (String percent EmptyString) t = true.
Proof.
    induction t as [|x t IH].
    - reflexivity.
    - apply like_percent_skip, IH.
Qed.

Lemma ilike_percent_all (t : string) : ilike "%" t = true.
Proof. unfold ilike. apply like_percent_all. Qed.

  (** Lower-casing leaves the pattern characters alone and creates none. *)
Lemma toLowerChar_meta (c : ascii) : isMeta (Js.toLowerChar c) = isMeta c.
Proof. destruct c as [[] [] [] [] [] [] [] []]; reflexivity. Qed.

Lemma toLowerChar_backslash (c : ascii) :
    Ascii.eqb (Js.toLowerChar c) backslash = Ascii.eqb c backslash.
Proof. destruct c as [[] [] [] [] [] [] [] []]; reflexivity. Qed.

Lemma like_plain (c : ascii) (p t : string) :
    Ascii.eqb c percent = false -> Ascii.eqb c underscore = false ->
    Ascii.eqb c backslash = false ->
    like (String c p) t
    = match t with
      | EmptyString => false
      | String x t' => Ascii.eqb c x && like p t'
      end.
Proof. intros E1 E2 E3. simpl. rewrite E1, E2, E3. reflexivity. Qed.

  (** Without pattern characters, [like] is equality. *)
Lemma like_noMeta (q t : string) :
    noMeta q = true -> like q t = String.eqb q t.
Proof.
    revert t. induction q as [|c q IH]; intros t Hq.
    - destruct t; reflexivity.
    - simpl in Hq. apply andb_true_iff in Hq as [Hc Hq].
      apply negb_true_iff in Hc. unfold isMeta in Hc.
      apply orb_false_iff in Hc as [Hc E4].
      apply orb_false_iff in Hc as [Hc E3].
      apply orb_false_iff in Hc as [E1 E2].
      rewrite like_plain by assumption.
      destruct t as [|x t]; [reflexivity|].
      simpl. rewrite IH by assumption.
      destruct (Ascii.eqb c x); reflexivity.
Qed.

Lemma starToPercent_noMeta (p : string) :
    noMeta p = true -> starToPercent p = p.
Proof.
    induction p as [|c p IH]; intros Hp; [reflexivity|].
    simpl in Hp. apply andb_true_iff in Hp as [Hc Hp].
    apply negb_true_iff in Hc. unfold isMeta in Hc.
    apply orb_false_iff in Hc as [_ E4].
    simpl. rewrite E4, IH by assumption. reflexivity.
Qed.

Lemma toLowerCase_noMeta (p : string) :
    noMeta (Js.toLowerCase p) = noMeta p.
Proof.
    induction p as [|c p IH]; [reflexivity|].
    simpl. rewrite toLowerChar_meta, IH. reflexivity.
Qed.

  (** For a name without pattern characters the ILIKE filter is equality up
      to case. *)
Lemma ilike_noMeta (name text : string) :
    noMeta name = true -> ilike name text = Spec.sameIgnoringCase name text.
Proof.
    intros Hn. unfold ilike, Spec.sameIgnoringCase.
    rewrite starToPercent_noMeta by assumption.
    apply like_noMeta. rewrite toLowerCase_noMeta. assumption.
Qed.

  (** A name without backslash matches, as a pattern, every text equal to
      it up to case: [%], [*] and [_] in the name match themselves too. *)
Lemma ilike_same (name text : string) :
    noBackslash name = true ->
    Spec.sameIgnoringCase name text = true ->
    ilike name text = true.
Proof.
    unfold ilike, Spec.sameIgnoringCase.
    revert text. induction name as [|c name IH]; intros text Hb Hs.
    - destruct text; [reflexivity | discriminate].
    - destruct text as [|x text]; [discriminate|].
      simpl in Hb. apply andb_true_iff in Hb as [Hc Hb].
      apply negb_true_iff in Hc.
      cbn [Js.toLowerCase] in Hs. apply String.eqb_eq in Hs. injection Hs as Hcx Hrest.
      assert (Hrest' : (Js.toLowerCase name =? Js.toLowerCase text)%string = true)
        by (apply String.eqb_eq; assumption).
      specialize (IH text Hb Hrest').
      cbn [starToPercent Js.toLowerCase].
      destruct (Ascii.eqb c star) eqn:Estar.
      + change (Js.toLowerChar percent) with percent.
        apply like_percent_skip, like_percent_here, IH.
      + destruct (Ascii.eqb (Js.toLowerChar c) percent) eqn:E1.
        { apply Ascii.eqb_eq in E1. rewrite E1.
          apply like_percent_skip, like_percent_here, IH. }
        destruct (Ascii.eqb (Js.toLowerChar c) underscore) eqn:E2.
        { apply Ascii.eqb_eq in E2. rewrite E2. simpl. exact IH. }
        rewrite <- toLowerChar_backslash in Hc.
        rewrite like_plain by assumption.
        rewrite Hcx, Ascii.eqb_refl. exact IH.
Qed.

End SqlFacts.

(* ===================================================================== *)
(** ** Running a handler                                                  *)
(* ===================================================================== *)

(** Unfold the monad and compute the field updates, keeping the string
    functions folded. *)
Ltac js_cbn :=
  cbn -[Js.trim Js.parseInt Sql.ilike Supabase.holds String.eqb String.append Nat.ltb
       RsvpNamed.checkDuplicate RsvpNamed.submitRsvp
       RsvpEmail.checkDuplicate RsvpEmail.submitRsvp].

Ltac run_js :=
  unfold exec, result, try_catch, try_catch_finally, bind, ret, throw, get, modify;
  js_cbn.

(* ===================================================================== *)
(** ** Facts about the server                                             *)
(* ===================================================================== *)

Section ServerFacts.
Context {Rsvp : Type}.

Lemma goThrough_hd (n : nat) (s : Supabase.Server Rsvp) :
  Spec.goThrough (S n) s = true -> hd None (Supabase.faults s) = None.
Proof.
  unfold Spec.goThrough. destruct (Supabase.faults s) as [|[m|] fs]; cbn;
    [reflexivity | discriminate | reflexivity].
Qed.

Lemma goThrough_tl (n : nat) (s : Supabase.Server Rsvp) (q : Supabase.Request Rsvp) :
  Spec.goThrough (S n) s = true ->
  Spec.goThrough n (snd (Supabase.receive q s)) = true.
Proof.
  unfold Spec.goThrough, Supabase.receive. cbn.
  destruct (Supabase.faults s) as [|[m|] fs]; cbn.
  - intros _. destruct n; reflexivity.
  - discriminate.
  - intros H. exact H.
Qed.

(** [.limit(1)] keeps the first row the filter lets through. *)
Lemma take_1_filter {A} (f : A -> bool) (l : list A) :
  take 1 (List.filter f l)
  = match List.find f l with Some x => [x] | None => [] end.
Proof.
  induction l as [|a l IH]; [reflexivity|].
  cbn. destruct (f a); [reflexivity | exact IH].
Qed.

Lemma find_existsb {A} (f : A -> bool) (l : list A) :
  existsb f l = match List.find f l with Some _ => true | None => false end.
Proof.
  induction l as [|a l IH]; [reflexivity|].
  cbn. destruct (f a); [reflexivity | exact IH].
Qed.

Lemma goThrough_pred (n : nat) (s : Supabase.Server Rsvp) :
  Spec.goThrough (S n) s = true -> Spec.goThrough n s = true.
Proof.
  unfold Spec.goThrough. generalize (Supabase.faults s). clear s.
  induction n as [|n IH]; intros fs H; [reflexivity|].
  destruct fs as [|f fs]; [reflexivity|].
  cbn in H |- *. destruct f; [discriminate|]. apply IH. exact H.
Qed.

End ServerFacts.

(* ===================================================================== *)
(** ** The gate                                                           *)
(* ===================================================================== *)

Section GateFacts.
Context {Rsvp : Type}.
Variable CORRECT_PASSWORD : string.

Local Abbreviation World := (AuthNamed.World Rsvp).
Local Abbreviation onSubmit := (AuthNamed.onSubmit CORRECT_PASSWORD).

(** A wrong password ends the handler before anything is stored or asked. *)
Lemma onSubmit_wrong_password (w : World) :
  Js.trim (AuthNamed.input_value (AuthNamed.dom w)) <> CORRECT_PASSWORD ->
  AuthNamed.session (exec onSubmit w) = AuthNamed.session w
  /\ AuthNamed.server (exec onSubmit w) = AuthNamed.server w.
Proof.
  intros Hpw. apply String.eqb_neq in Hpw.
  unfold AuthNamed.onSubmit. run_js. rewrite Hpw. split; reflexivity.
Qed.

(** With the right password and an answered lookup, the first matching row
    decides. *)
Lemma onSubmit_lookup (w : World) :
  Js.trim (AuthNamed.input_value (AuthNamed.dom w)) = CORRECT_PASSWORD ->
  Spec.goThrough 1 (AuthNamed.server w) = true ->
  match AuthNamed.firstMatch w with
  | Some row =>
      AuthNamed.session (exec onSubmit w)
      = Storage.setItem AuthNamed.LAST_NAME_KEY (Supabase.inv_last_name row)
          (Storage.setItem AuthNamed.STORAGE_KEY "true" (AuthNamed.session w))
      /\ AuthNamed.overlay_classList (AuthNamed.dom (exec onSubmit w))
         = {["gate-exit"]} ∪ AuthNamed.overlay_classList (AuthNamed.dom w)
  | None =>
      AuthNamed.session (exec onSubmit w) = AuthNamed.session w
      /\ AuthNamed.overlay_classList (AuthNamed.dom (exec onSubmit w))
         = AuthNamed.overlay_classList (AuthNamed.dom w)
  end.
Proof.
  intros Hpw Hnet. apply String.eqb_eq in Hpw. apply goThrough_hd in Hnet.
  unfold AuthNamed.firstMatch, AuthNamed.lastName, AuthNamed.onSubmit. run_js. rewrite Hpw. js_cbn.
  unfold AuthNamed.await, Supabase.selectInvitees, Supabase.receive. js_cbn.
  rewrite Hnet. js_cbn. rewrite take_1_filter.
  unfold Supabase.holds, Supabase.column, Supabase.invitee_columns. js_cbn.
  change ("last_name" =? "last_name")%string with true. cbv iota.
  destruct (List.find _ _) as [row|]; js_cbn; split; reflexivity.
Qed.

Lemma opened_after_add (c : gset string) :
  bool_decide ("gate-exit" ∈ ({["gate-exit"]} ∪ c : gset string)) = true.
Proof. apply bool_decide_eq_true. set_solver. Qed.

(** Whatever the inputs and the server's answer, either the overlay is left
    as it was, or both keys were stored and the overlay leaves. *)
Lemma onSubmit_cases (w : World) :
  AuthNamed.overlay_classList (AuthNamed.dom (exec onSubmit w))
  = AuthNamed.overlay_classList (AuthNamed.dom w)
  \/ exists row,
       AuthNamed.session (exec onSubmit w)
       = Storage.setItem AuthNamed.LAST_NAME_KEY (Supabase.inv_last_name row)
           (Storage.setItem AuthNamed.STORAGE_KEY "true" (AuthNamed.session w)).
Proof.
  unfold AuthNamed.onSubmit. run_js.
  destruct (String.eqb _ CORRECT_PASSWORD); js_cbn; [|left; reflexivity].
  unfold AuthNamed.await, Supabase.selectInvitees, Supabase.receive. js_cbn.
  destruct (hd None _); js_cbn; [left; reflexivity|].
  destruct (take 1 _) as [|row ?]; js_cbn; [left; reflexivity|].
  right. exists row. reflexivity.
Qed.

Lemma isAuthenticated_stored (name : string) (store : gmap string string) :
  AuthNamed.isAuthenticated
    (Storage.setItem AuthNamed.LAST_NAME_KEY name
       (Storage.setItem AuthNamed.STORAGE_KEY "true" store)) = true.
Proof.
  unfold AuthNamed.isAuthenticated, Storage.getItem, Storage.setItem.
  apply andb_true_iff. split; apply bool_decide_eq_true.
  - rewrite lookup_insert_ne by discriminate. apply lookup_insert_eq.
  - rewrite lookup_insert_eq. discriminate.
Qed.

Lemma isAuthenticated_logout (store : gmap string string) :
  AuthNamed.isAuthenticated (AuthNamed.logout store) = false.
Proof.
  unfold AuthNamed.isAuthenticated, AuthNamed.logout, Storage.getItem, Storage.removeItem.
  apply andb_false_iff. left. apply bool_decide_eq_false.
  rewrite lookup_delete_ne by discriminate. rewrite lookup_delete_eq. discriminate.
Qed.

Lemma find_of_In {A} (f : A -> bool) (l : list A) (x : A) :
  In x l -> f x = true -> exists y, List.find f l = Some y.
Proof.
  induction l as [|a l IH]; intros Hin Hx; [destruct Hin|].
  cbn. destruct (f a) eqn:E; [eauto|].
  destruct Hin as [->|Hin]; [congruence | auto].
Qed.

End GateFacts.

(* ===================================================================== *)
(** ** The RSVP form                                                      *)
(* ===================================================================== *)

Section RsvpFacts.
Import RsvpPage.

Lemma length_take_1 {A} (f : A -> bool) (l : list A) :
  (0 <? length (take 1 (List.filter f l)))%nat = existsb f l.
Proof.
  rewrite take_1_filter, find_existsb. destruct (List.find f l); reflexivity.
Qed.

(** The filter of the guest-name variant on a row. *)
Lemma holds_guest_name (name : string) (r : RsvpNamed.Rsvp) :
  Supabase.holds (Supabase.ILike "guest_name" name) r
  = Sql.ilike name (RsvpNamed.guest_name r).
Proof. reflexivity. Qed.

(** The filter of the email variant on a row. *)
Lemma holds_email (e : string) (r : RsvpEmail.Rsvp) :
  Supabase.holds (Supabase.Eq "email" e) r = String.eqb (RsvpEmail.email r) e.
Proof. reflexivity. Qed.

Lemma existsb_ext_eq {A} (f g : A -> bool) (l : list A) :
  (forall a, f a = g a) -> existsb f l = existsb g l.
Proof.
  intros E. induction l as [|a l IH]; [reflexivity|]. cbn. rewrite E, IH. reflexivity.
Qed.

(** An answered duplicate check says whether some row matches, and leaves
    the tables as they are. *)
Lemma named_checkDuplicate (name : string) (p : Page RsvpNamed.Form RsvpNamed.Rsvp) :
  Spec.goThrough 1 (server p) = true ->
  RsvpNamed.checkDuplicate name p
  = (Returned (existsb (fun r => Sql.ilike name (RsvpNamed.guest_name r))
                 (Supabase.tbl_rsvps (server p))),
     withServer
       (snd (Supabase.receive
               (Supabase.Select Supabase.rsvps (Supabase.ILike "guest_name" name) 1)
               (server p))) p).
Proof.
  intros Hnet. apply goThrough_hd in Hnet.
  unfold RsvpNamed.checkDuplicate, await, Supabase.selectRsvps, Supabase.receive.
  run_js. rewrite Hnet. js_cbn. rewrite length_take_1.
  rewrite (existsb_ext_eq _ _ _ (holds_guest_name name)). reflexivity.
Qed.

Lemma email_checkDuplicate (e : string) (p : Page RsvpEmail.Form RsvpEmail.Rsvp) :
  Spec.goThrough 1 (server p) = true ->
  RsvpEmail.checkDuplicate e p
  = (Returned (existsb (fun r => String.eqb (RsvpEmail.email r) e)
                 (Supabase.tbl_rsvps (server p))),
     withServer
       (snd (Supabase.receive
               (Supabase.Select Supabase.rsvps (Supabase.Eq "email" e) 1)
               (server p))) p).
Proof.
  intros Hnet. apply goThrough_hd in Hnet.
  unfold RsvpEmail.checkDuplicate, await, Supabase.selectRsvps, Supabase.receive.
  run_js. rewrite Hnet. js_cbn. rewrite length_take_1.
  rewrite (existsb_ext_eq _ _ _ (holds_email e)). reflexivity.
Qed.

Lemma named_submitRsvp (r : RsvpNamed.Rsvp) (p : Page RsvpNamed.Form RsvpNamed.Rsvp) :
  Spec.goThrough 1 (server p) = true ->
  RsvpNamed.submitRsvp r p = (Returned tt, withServer (Spec.inserted r (server p)) p).
Proof.
  intros Hnet. apply goThrough_hd in Hnet.
  unfold RsvpNamed.submitRsvp, await, Supabase.insertRsvps, Supabase.receive.
  run_js. rewrite Hnet. reflexivity.
Qed.

Lemma email_submitRsvp (r : RsvpEmail.Rsvp) (p : Page RsvpEmail.Form RsvpEmail.Rsvp) :
  Spec.goThrough 1 (server p) = true ->
  RsvpEmail.submitRsvp r p = (Returned tt, withServer (Spec.inserted r (server p)) p).
Proof.
  intros Hnet. apply goThrough_hd in Hnet.
  unfold RsvpEmail.submitRsvp, await, Supabase.insertRsvps, Supabase.receive.
  run_js. rewrite Hnet. reflexivity.
Qed.

Lemma goThrough_inserted {Rsvp} (n : nat) (r : Rsvp) (s : Supabase.Server Rsvp) :
  Spec.goThrough (S n) s = true -> Spec.goThrough n (Spec.inserted r s) = true.
Proof.
  intros H. apply (goThrough_tl n s (Supabase.InsertRsvps [r])) in H. exact H.
Qed.

(** *** The three ways through the handler, guest-name variant *)

Local Abbreviation NamedPage := (Page RsvpNamed.Form RsvpNamed.Rsvp).
Local Abbreviation EmailPage := (Page RsvpEmail.Form RsvpEmail.Rsvp).

(** What an element guarded by [if (el)] holds after an assignment. *)
Local Abbreviation assigned v el := (match el with None => None | Some _ => Some v end).

Lemma named_onSubmit_invalid (authLastName : option string) (p : NamedPage) :
  Js.truthy (RsvpNamed.trimmedValue (RsvpNamed.guest_name_value (form p))) = false ->
  exec (RsvpNamed.onSubmit authLastName) p
  = mkPage (server p) (form p) (form_defaults p)
      (assigned (mkButton false "Send RSVP") (submitBtn p))
      (assigned (mkMessageEl "Please fill in your name." "rsvp-message rsvp-message--error")
         (rsvp_message p))
      (section_display p) (console p).
Proof.
  intros Hv. unfold RsvpNamed.onSubmit. run_js. rewrite Hv. js_cbn.
  unfold showFormMessage, set_submitBtn. run_js.
  destruct (submitBtn p), (rsvp_message p); reflexivity.
Qed.

Lemma named_onSubmit_duplicate (authLastName : option string) (p : NamedPage) :
  let guestName := RsvpNamed.trimmedValue (RsvpNamed.guest_name_value (form p)) in
  Js.truthy guestName = true ->
  Spec.goThrough 1 (server p) = true ->
  existsb (fun r => Sql.ilike guestName (RsvpNamed.guest_name r))
    (Supabase.tbl_rsvps (server p)) = true ->
  exec (RsvpNamed.onSubmit authLastName) p
  = mkPage
      (snd (Supabase.receive
              (Supabase.Select Supabase.rsvps (Supabase.ILike "guest_name" guestName) 1)
              (server p)))
      (form p) (form_defaults p)
      (assigned (mkButton false "Send RSVP") (submitBtn p))
      (assigned
         (mkMessageEl
            ("Looks like you're already on the list, " +:+ guestName
             +:+ "! If you need to make changes, reach out to us directly.")
            "rsvp-message rsvp-message--warning")
         (rsvp_message p))
      (section_display p) (console p).
Proof.
  intros guestName Hv Hnet Hdup. subst guestName.
  unfold RsvpNamed.onSubmit. run_js. rewrite Hv. js_cbn.
  rewrite named_checkDuplicate by exact Hnet. js_cbn. rewrite Hdup.
  unfold showFormMessage, set_submitBtn, withServer. run_js.
  destruct (submitBtn p), (rsvp_message p); reflexivity.
Qed.

(** *** The ways through the handler, email variant *)

Lemma email_onSubmit_invalid (p : EmailPage) :
  negb (Js.truthy (RsvpEmail.trimmedValue (RsvpEmail.guest_name_value (form p))))
  || negb (Js.truthy (RsvpEmail.trimmedValue (RsvpEmail.guest_email_value (form p))))
  = true ->
  exec RsvpEmail.onSubmit p
  = mkPage (server p) (form p) (form_defaults p)
      (assigned (mkButton false "Send RSVP") (submitBtn p))
      (assigned
         (mkMessageEl "Please fill in your name and email." "rsvp-message rsvp-message--error")
         (rsvp_message p))
      (section_display p) (console p).
Proof.
  intros Hv. unfold RsvpEmail.onSubmit. run_js. rewrite Hv. js_cbn.
  unfold showFormMessage, set_submitBtn. run_js.
  destruct (submitBtn p), (rsvp_message p); reflexivity.
Qed.

Lemma email_onSubmit_duplicate (p : EmailPage) :
  let guestName := RsvpEmail.trimmedValue (RsvpEmail.guest_name_value (form p)) in
  let email := RsvpEmail.trimmedValue (RsvpEmail.guest_email_value (form p)) in
  Js.truthy guestName = true ->
  Js.truthy email = true ->
  Spec.goThrough 1 (server p) = true ->
  existsb (fun r => String.eqb (RsvpEmail.email r) email)
    (Supabase.tbl_rsvps (server p)) = true ->
  exec RsvpEmail.onSubmit p
  = mkPage
      (snd (Supabase.receive
              (Supabase.Select Supabase.rsvps (Supabase.Eq "email" email) 1)
              (server p)))
      (form p) (form_defaults p)
      (assigned (mkButton false "Send RSVP") (submitBtn p))
      (assigned
         (mkMessageEl
            ("You're already on the list, " +:+ guestName
             +:+ "! If you need to make changes, reach out to us directly.")
            "rsvp-message rsvp-message--success")
         (rsvp_message p))
      (section_display p) (console p).
Proof.
  intros guestName email Hn He Hnet Hdup. subst guestName email.
  unfold RsvpEmail.onSubmit. run_js. rewrite Hn, He. js_cbn.
  rewrite email_checkDuplicate by exact Hnet. js_cbn. rewrite Hdup.
  unfold showFormMessage, set_submitBtn, withServer. run_js.
  destruct (submitBtn p), (rsvp_message p); reflexivity.
Qed.

(** With no row for the email, the handler goes on to the insert, whatever
    the number of guests read from the form. *)
Lemma email_onSubmit_fresh (p : EmailPage) :
  let f := form p in
  let guestName := RsvpEmail.trimmedValue (RsvpEmail.guest_name_value f) in
  let email := RsvpEmail.trimmedValue (RsvpEmail.guest_email_value f) in
  let attending := bool_decide (RsvpEmail.attending_checked f = Some "true") in
  Js.truthy guestName = true ->
  Js.truthy email = true ->
  Spec.goThrough 1 (server p) = true ->
  existsb (fun r => String.eqb (RsvpEmail.email r) email)
    (Supabase.tbl_rsvps (server p)) = false ->
  Supabase.requests (server (exec RsvpEmail.onSubmit p))
  = Supabase.InsertRsvps
      [RsvpEmail.mkRsvp None None guestName email
         (Js.orUndefined (RsvpEmail.trimmedValue (RsvpEmail.guest_phone_value f)))
         attending
         (if attending
          then Js.parseInt (default "1" (RsvpEmail.number_of_guests_value f))
          else Js.Num 0)
         (Js.orUndefined (RsvpEmail.trimmedValue (RsvpEmail.dietary_restrictions_value f)))
         (Js.orUndefined (RsvpEmail.trimmedValue (RsvpEmail.rsvp_message_input_value f)))]
    :: Supabase.Select Supabase.rsvps (Supabase.Eq "email" email) 1
    :: Supabase.requests (server p).
Proof.
  intros f guestName email attending Hn He Hnet Hdup. subst f guestName email attending.
  unfold RsvpEmail.onSubmit. run_js. rewrite Hn, He. js_cbn.
  rewrite email_checkDuplicate by exact Hnet. js_cbn. rewrite Hdup.
  unfold RsvpEmail.submitRsvp, await, Supabase.insertRsvps, Supabase.receive,
    showFormMessage, set_submitBtn, form_reset, section_hide, console_error, withServer.
  run_js.
  destruct (hd None (tail (Supabase.faults (server p)))), (rsvp_message p),
    (submitBtn p), (section_display p); reflexivity.
Qed.

End RsvpFacts.

(* ===================================================================== *)
(** ** The admin join                                                     *)
(* ===================================================================== *)

Section AdminFacts.

(** The rows the count of a key stands for. *)
Lemma fold_countRsvp (rsvps : list RsvpNamed.Rsvp) (m : gmap string nat) (k : string) :
  default 0%nat (fold_left Admin.countRsvp rsvps m !! k)
  = (default 0%nat (m !! k)
     + length (List.filter
                 (fun r => Js.truthy (RsvpNamed.last_name r)
                           && String.eqb (Js.toLowerCase (RsvpNamed.last_name r)) k)
                 rsvps))%nat.
Proof.
  revert m. induction rsvps as [|r rsvps IH]; intros m.
  - cbn. lia.
  - cbn [fold_left List.filter]. rewrite IH. unfold Admin.countRsvp.
    destruct (Js.truthy (RsvpNamed.last_name r)); cbn [andb].
    + destruct (String.eqb_spec (Js.toLowerCase (RsvpNamed.last_name r)) k) as [E|E].
      * subst k. rewrite lookup_insert_eq. cbn. lia.
      * rewrite lookup_insert_ne by exact E. reflexivity.
    + reflexivity.
Qed.

End AdminFacts.


(* ===================================================================== *)
(** ** The claims about the gate                                          *)
(* ===================================================================== *)

Section GateClaims.
Context {Rsvp : Type}.

(** C3.  A login attempt with an incorrect secret leaves the session store
    as it was, whatever the last name: [attemptLogin] of the password-only
    variant returns false with the store unchanged, and the submit handler
    of the name-verified variant ends before writing or removing any key
    (every last name, every store). *)
Theorem C3_wrong_secret_keeps_session (CORRECT_PASSWORD password : string)
    (store : gmap string string) (w : AuthNamed.World Rsvp) :
  password <> CORRECT_PASSWORD ->
  AuthNamed.password w <> CORRECT_PASSWORD ->
  Auth.attemptLogin CORRECT_PASSWORD password store = (false, store)
  /\ AuthNamed.session (exec (AuthNamed.onSubmit CORRECT_PASSWORD) w)
     = AuthNamed.session w.
Proof.
  intros Hpw Hw. split.
  - unfold Auth.attemptLogin. apply String.eqb_neq in Hpw. rewrite Hpw. reflexivity.
  - apply onSubmit_wrong_password. exact Hw.
Qed.

(** C7.  [isAuthenticated] is false right after [logout] and true right
    after a successful login, in both variants of the gate; in the
    name-verified variant a login is successful when the submit handler
    makes the shown gate leave. *)
Theorem C7_logout_and_login (CORRECT_PASSWORD password : string)
    (store : gmap string string) (w : AuthNamed.World Rsvp) :
  Auth.isAuthenticated (Auth.logout store) = false
  /\ (fst (Auth.attemptLogin CORRECT_PASSWORD password store) = true ->
      Auth.isAuthenticated (snd (Auth.attemptLogin CORRECT_PASSWORD password store))
      = true)
  /\ AuthNamed.isAuthenticated (AuthNamed.logout store) = false
  /\ (AuthNamed.opened w = false ->
      AuthNamed.opened (exec (AuthNamed.onSubmit CORRECT_PASSWORD) w) = true ->
      AuthNamed.isAuthenticated
        (AuthNamed.session (exec (AuthNamed.onSubmit CORRECT_PASSWORD) w)) = true).
Proof.
  repeat split.
  - unfold Auth.isAuthenticated, Auth.logout, Storage.getItem, Storage.removeItem.
    apply bool_decide_eq_false. rewrite lookup_delete_eq. discriminate.
  - unfold Auth.attemptLogin.
    destruct (String.eqb password CORRECT_PASSWORD); cbn; [intros _ | discriminate].
    unfold Auth.isAuthenticated, Storage.getItem, Storage.setItem.
    apply bool_decide_eq_true. apply lookup_insert_eq.
  - apply isAuthenticated_logout.
  - intros Hclosed Hopen.
    destruct (onSubmit_cases CORRECT_PASSWORD w) as [Hsame | [row Hrow]].
    + unfold AuthNamed.opened in *. rewrite Hsame in Hopen. congruence.
    + rewrite Hrow. apply isAuthenticated_stored.
Qed.

End GateClaims.

(** C3 at work: a wrong guess at either gate, on an empty session store. *)
Lemma C3_witness :
  Auth.attemptLogin Scenario.secret "guess" ∅ = (false, ∅)
  /\ AuthNamed.session
       (exec (AuthNamed.onSubmit Scenario.secret)
          (Scenario.gate [Scenario.invitee "smith"] "Smith" "guess"))
     = ∅.
Proof.
  apply (C3_wrong_secret_keeps_session Scenario.secret "guess" ∅
           (Scenario.gate [Scenario.invitee "smith"] "Smith" "guess"));
    vm_compute; discriminate.
Defined.

(** C7 at work: the right password at either gate. *)
Lemma C7_witness :
  Auth.isAuthenticated (snd (Auth.attemptLogin Scenario.secret "alpine" ∅)) = true
  /\ AuthNamed.isAuthenticated
       (AuthNamed.session
          (exec (AuthNamed.onSubmit Scenario.secret)
             (Scenario.gate [Scenario.invitee "smith"] "Smith" "alpine"))) = true.
Proof.
  destruct (C7_logout_and_login Scenario.secret "alpine" ∅
              (Scenario.gate [Scenario.invitee "smith"] "Smith" "alpine"))
    as (_ & Hlogin & _ & Hgate).
  split.
  - apply Hlogin. vm_compute. reflexivity.
  - apply Hgate; vm_compute; reflexivity.
Defined.

(** C1.  The code departs from the claim at the last name [%]: no row of
    the guest list [smith] has a last name equal to [%] up to case, and yet
    the gate opens and stores [smith] as the matched name. *)
Theorem C1_percent_opens_the_gate :
  existsb (fun inv => Spec.sameIgnoringCase "%" (Supabase.inv_last_name inv))
    [Scenario.invitee "smith"] = false
  /\ AuthNamed.opened
       (exec (AuthNamed.onSubmit Scenario.secret)
          (Scenario.gate [Scenario.invitee "smith"] "%" "alpine")) = true
  /\ Storage.getItem AuthNamed.LAST_NAME_KEY
       (AuthNamed.session
          (exec (AuthNamed.onSubmit Scenario.secret)
             (Scenario.gate [Scenario.invitee "smith"] "%" "alpine")))
     = Some "smith".
Proof. repeat split; vm_compute; reflexivity. Qed.

(** C4.  The code departs from the claim at the last name [O\Neil]: with
    the invitee stored as [O\Neil] and the name typed just so, the gate
    stays shut, nothing is stored and the guest is told that the last name
    is not on the guest list. *)
Theorem C4_stored_backslash_name_is_refused :
  existsb (fun inv => Spec.sameIgnoringCase "O\Neil" (Supabase.inv_last_name inv))
    [Scenario.invitee "O\Neil"] = true
  /\ AuthNamed.opened
       (exec (AuthNamed.onSubmit Scenario.secret)
          (Scenario.gate [Scenario.invitee "O\Neil"] "O\Neil" "alpine")) = false
  /\ AuthNamed.session
       (exec (AuthNamed.onSubmit Scenario.secret)
          (Scenario.gate [Scenario.invitee "O\Neil"] "O\Neil" "alpine")) = ∅
  /\ AuthNamed.error_textContent
       (AuthNamed.dom
          (exec (AuthNamed.onSubmit Scenario.secret)
             (Scenario.gate [Scenario.invitee "O\Neil"] "O\Neil" "alpine")))
     = "Last name not found on guest list. Please check your invitation or contact us.".
Proof. repeat split; vm_compute; reflexivity. Qed.

(* ===================================================================== *)
(** ** The claims about the RSVP form                                     *)
(* ===================================================================== *)

Section RsvpClaims.
Import RsvpPage.

Local Abbreviation NamedPage := (Page RsvpNamed.Form RsvpNamed.Rsvp).
Local Abbreviation EmailPage := (Page RsvpEmail.Form RsvpEmail.Rsvp).
Local Abbreviation assigned v el := (match el with None => None | Some _ => Some v end).

(** C5.  When the duplicate check is answered and finds a matching row,
    the handler sends no insert (the table is unchanged and the check is
    the only request), shows the already-on-the-list message and
    re-enables the submit button, in both variants. *)
Theorem C5_duplicate_rejected_without_insert
    (authLastName : option string) (p : NamedPage) (q : EmailPage) :
  Js.truthy (RsvpNamed.trimmedValue (RsvpNamed.guest_name_value (form p))) = true ->
  Spec.goThrough 1 (server p) = true ->
  existsb
    (fun r => Sql.ilike (RsvpNamed.trimmedValue (RsvpNamed.guest_name_value (form p)))
                (RsvpNamed.guest_name r))
    (Supabase.tbl_rsvps (server p)) = true ->
  Js.truthy (RsvpEmail.trimmedValue (RsvpEmail.guest_name_value (form q))) = true ->
  Js.truthy (RsvpEmail.trimmedValue (RsvpEmail.guest_email_value (form q))) = true ->
  Spec.goThrough 1 (server q) = true ->
  existsb
    (fun r => String.eqb (RsvpEmail.email r)
                (RsvpEmail.trimmedValue (RsvpEmail.guest_email_value (form q))))
    (Supabase.tbl_rsvps (server q)) = true ->
  (Supabase.tbl_rsvps (server (exec (RsvpNamed.onSubmit authLastName) p))
   = Supabase.tbl_rsvps (server p)
   /\ Supabase.requests (server (exec (RsvpNamed.onSubmit authLastName) p))
      = Supabase.Select Supabase.rsvps
          (Supabase.ILike "guest_name"
             (RsvpNamed.trimmedValue (RsvpNamed.guest_name_value (form p)))) 1
        :: Supabase.requests (server p)
   /\ rsvp_message (exec (RsvpNamed.onSubmit authLastName) p)
      = assigned
          (mkMessageEl
             ("Looks like you're already on the list, "
              +:+ RsvpNamed.trimmedValue (RsvpNamed.guest_name_value (form p))
              +:+ "! If you need to make changes, reach out to us directly.")
             "rsvp-message rsvp-message--warning")
          (rsvp_message p)
   /\ submitBtn (exec (RsvpNamed.onSubmit authLastName) p)
      = assigned (mkButton false "Send RSVP") (submitBtn p))
  /\ (Supabase.tbl_rsvps (server (exec RsvpEmail.onSubmit q))
      = Supabase.tbl_rsvps (server q)
      /\ Supabase.requests (server (exec RsvpEmail.onSubmit q))
         = Supabase.Select Supabase.rsvps
             (Supabase.Eq "email"
                (RsvpEmail.trimmedValue (RsvpEmail.guest_email_value (form q)))) 1
           :: Supabase.requests (server q)
      /\ rsvp_message (exec RsvpEmail.onSubmit q)
         = assigned
             (mkMessageEl
                ("You're already on the list, "
                 +:+ RsvpEmail.trimmedValue (RsvpEmail.guest_name_value (form q))
                 +:+ "! If you need to make changes, reach out to us directly.")
                "rsvp-message rsvp-message--success")
             (rsvp_message q)
      /\ submitBtn (exec RsvpEmail.onSubmit q)
         = assigned (mkButton false "Send RSVP") (submitBtn q)).
Proof.
  intros Hn Hnet Hdup Hn' He' Hnet' Hdup'. split.
  - rewrite (named_onSubmit_duplicate authLastName p Hn Hnet Hdup).
    repeat split; reflexivity.
  - rewrite (email_onSubmit_duplicate q Hn' He' Hnet' Hdup').
    repeat split; reflexivity.
Qed.

(** C6.  When the trimmed guest name is empty (or, in the email variant,
    the trimmed name or the trimmed email), the handler shows the
    validation error, re-enables the button and sends nothing: the server,
    with its log of requests, is as before. *)
Theorem C6_validation_stays_local
    (authLastName : option string) (p : NamedPage) (q : EmailPage) :
  Js.truthy (RsvpNamed.trimmedValue (RsvpNamed.guest_name_value (form p))) = false ->
  Js.truthy (RsvpEmail.trimmedValue (RsvpEmail.guest_name_value (form q))) = false
  \/ Js.truthy (RsvpEmail.trimmedValue (RsvpEmail.guest_email_value (form q))) = false ->
  (server (exec (RsvpNamed.onSubmit authLastName) p) = server p
   /\ rsvp_message (exec (RsvpNamed.onSubmit authLastName) p)
      = assigned
          (mkMessageEl "Please fill in your name." "rsvp-message rsvp-message--error")
          (rsvp_message p)
   /\ submitBtn (exec (RsvpNamed.onSubmit authLastName) p)
      = assigned (mkButton false "Send RSVP") (submitBtn p))
  /\ (server (exec RsvpEmail.onSubmit q) = server q
      /\ rsvp_message (exec RsvpEmail.onSubmit q)
         = assigned
             (mkMessageEl "Please fill in your name and email."
                "rsvp-message rsvp-message--error")
             (rsvp_message q)
      /\ submitBtn (exec RsvpEmail.onSubmit q)
         = assigned (mkButton false "Send RSVP") (submitBtn q)).
Proof.
  intros Hn Hq. split.
  - rewrite (named_onSubmit_invalid authLastName p Hn). repeat split; reflexivity.
  - rewrite (email_onSubmit_invalid q).
    + repeat split; reflexivity.
    + destruct Hq as [H|H]; rewrite H; cbn; [reflexivity | apply orb_true_r].
Qed.

(** C10.  In the email variant the guest count is not validated: when
    "attending" is chosen and the guests field is empty or [parseInt] finds
    no number in it, a valid form whose email has no row yet sends an
    insert of a record with [number_of_guests = NaN]. *)
Theorem C10_guest_count_not_validated (p : EmailPage) (raw : string) :
  RsvpEmail.attending_checked (form p) = Some "true" ->
  RsvpEmail.number_of_guests_value (form p) = Some raw ->
  raw = EmptyString \/ Js.parseInt raw = Js.NaN ->
  Js.truthy (RsvpEmail.trimmedValue (RsvpEmail.guest_name_value (form p))) = true ->
  Js.truthy (RsvpEmail.trimmedValue (RsvpEmail.guest_email_value (form p))) = true ->
  Spec.goThrough 1 (server p) = true ->
  existsb
    (fun r => String.eqb (RsvpEmail.email r)
                (RsvpEmail.trimmedValue (RsvpEmail.guest_email_value (form p))))
    (Supabase.tbl_rsvps (server p)) = false ->
  head (Supabase.requests (server (exec RsvpEmail.onSubmit p)))
  = Some
      (Supabase.InsertRsvps
         [RsvpEmail.mkRsvp None None
            (RsvpEmail.trimmedValue (RsvpEmail.guest_name_value (form p)))
            (RsvpEmail.trimmedValue (RsvpEmail.guest_email_value (form p)))
            (Js.orUndefined (RsvpEmail.trimmedValue (RsvpEmail.guest_phone_value (form p))))
            true Js.NaN
            (Js.orUndefined
               (RsvpEmail.trimmedValue (RsvpEmail.dietary_restrictions_value (form p))))
            (Js.orUndefined
               (RsvpEmail.trimmedValue (RsvpEmail.rsvp_message_input_value (form p))))]).
Proof.
  intros Hatt Hraw Hnan Hn He Hnet Hdup.
  rewrite (email_onSubmit_fresh p Hn He Hnet Hdup).
  rewrite Hatt, Hraw. cbn [head default from_option id].
  assert (Hp : Js.parseInt raw = Js.NaN) by (destruct Hnan as [->|H]; [reflexivity | exact H]).
  rewrite Hp. reflexivity.
Qed.

End RsvpClaims.

(* ===================================================================== *)
(** ** Pattern characters in user input, and the admin count              *)
(* ===================================================================== *)

Section PatternClaims.
Context {Rsvp : Type}.
Import RsvpPage.

(** C9.  The raw input is the ILIKE pattern: on a non-empty RSVP table an
    answered [checkDuplicate("%")] returns true, and on a non-empty invitee
    table the name-verified gate, given the right secret and the last name
    [%], opens and stores the last name of the first invitee row. *)
Theorem C9_percent_matches_every_row (CORRECT_PASSWORD : string)
    (p : Page RsvpNamed.Form RsvpNamed.Rsvp) (r : RsvpNamed.Rsvp)
    (rows : list RsvpNamed.Rsvp)
    (w : AuthNamed.World Rsvp) (inv : Supabase.Invitee) (rest : list Supabase.Invitee) :
  Supabase.tbl_rsvps (server p) = r :: rows ->
  Spec.goThrough 1 (server p) = true ->
  AuthNamed.password w = CORRECT_PASSWORD ->
  AuthNamed.lastNameInput_value (AuthNamed.dom w) = "%" ->
  Supabase.tbl_invitees (AuthNamed.server w) = inv :: rest ->
  Spec.goThrough 1 (AuthNamed.server w) = true ->
  result (RsvpNamed.checkDuplicate "%") p = Returned true
  /\ AuthNamed.opened (exec (AuthNamed.onSubmit CORRECT_PASSWORD) w) = true
  /\ AuthNamed.session (exec (AuthNamed.onSubmit CORRECT_PASSWORD) w)
     = Storage.setItem AuthNamed.LAST_NAME_KEY (Supabase.inv_last_name inv)
         (Storage.setItem AuthNamed.STORAGE_KEY "true" (AuthNamed.session w)).
Proof.
  intros Hrows Hnet Hpw Hname Hinv Hnet'. split.
  - unfold result. rewrite named_checkDuplicate by exact Hnet.
    rewrite Hrows. cbn [fst existsb]. rewrite ilike_percent_all. reflexivity.
  - pose proof (onSubmit_lookup CORRECT_PASSWORD w Hpw Hnet') as Hrun.
    unfold AuthNamed.firstMatch, AuthNamed.lastName in Hrun.
    rewrite Hname, Hinv in Hrun. change (Js.trim "%") with "%" in Hrun.
    cbn [List.find] in Hrun. rewrite ilike_percent_all in Hrun.
    destruct Hrun as [Hs Ho]. unfold AuthNamed.opened. rewrite Ho.
    split; [apply opened_after_add | exact Hs].
Qed.

End PatternClaims.

(** C8 (as amended).  In the invitees tab each invitee's count is the
    number of fetched RSVP rows with a non-empty [last_name] that equals
    the invitee's [last_name] up to case. *)
Theorem C8_rsvd_count_is_the_join
    (rsvps : list RsvpNamed.Rsvp) (invitees : list Supabase.Invitee) :
  List.map Admin.row_rsvdCount
    (Admin.renderInviteesTab invitees (Admin.rsvpCounts rsvps))
  = List.map
      (fun inv =>
         length
           (List.filter
              (fun r => Js.truthy (RsvpNamed.last_name r)
                        && Spec.sameIgnoringCase (RsvpNamed.last_name r)
                             (Supabase.inv_last_name inv))
              rsvps))
      invitees.
Proof.
  unfold Admin.renderInviteesTab, Admin.rsvpCounts.
  rewrite List.map_map. apply List.map_ext. intros inv.
  cbn [Admin.row_rsvdCount]. rewrite fold_countRsvp.
  rewrite lookup_empty. reflexivity.
Qed.

(** C8 as stated fails: an RSVP row without last name is not counted for
    an invitee without last name, although the two are equal. *)
Lemma C8_counterexample :
  List.map Admin.row_rsvdCount
    (Admin.renderInviteesTab [Scenario.invitee EmptyString]
       (Admin.rsvpCounts [Scenario.namedRsvp "Alex Rivera" EmptyString]))
  <> List.map
       (fun inv =>
          length
            (List.filter
               (fun r => Spec.sameIgnoringCase (RsvpNamed.last_name r)
                           (Supabase.inv_last_name inv))
               [Scenario.namedRsvp "Alex Rivera" EmptyString]))
       [Scenario.invitee EmptyString].
Proof. vm_compute. discriminate. Qed.

(** C2.  The code departs from the claim at the guest name [a\b]: right
    after the insert of that guest into an empty table the duplicate check
    for [a\b] returns false, where the email variant returns true for the
    same text as email; and a second submission of the same name is
    stored as a second row. *)
Theorem C2_backslash_name_is_not_found :
  result
    (RsvpNamed.submitRsvp (Scenario.namedRsvp "a\b" "rivera") ;;;
     RsvpNamed.checkDuplicate "a\b")
    (Scenario.namedPage [] "a\b")
  = Returned false
  /\ result
       (RsvpEmail.submitRsvp (Scenario.emailRsvp "Alex Rivera" "a\b") ;;;
        RsvpEmail.checkDuplicate "a\b")
       (Scenario.emailPage [] "Alex Rivera" "a\b" "1")
     = Returned true
  /\ List.map RsvpNamed.guest_name
       (Supabase.tbl_rsvps
          (RsvpPage.server
             (exec (RsvpNamed.onSubmit (Some "rivera"))
                (Scenario.namedPage [Scenario.namedRsvp "a\b" "rivera"] "a\b"))))
     = ["a\b"; "a\b"].
Proof. repeat split; vm_compute; reflexivity. Qed.

(** C5 at work: a second submission in each variant leaves one row. *)
Lemma C5_witness :
  Supabase.tbl_rsvps
    (RsvpPage.server
       (exec (RsvpNamed.onSubmit (Some "rivera"))
          (Scenario.namedPage [Scenario.namedRsvp "Alex Rivera" "rivera"] " alex rivera ")))
  = [Scenario.namedRsvp "Alex Rivera" "rivera"]
  /\ Supabase.tbl_rsvps
       (RsvpPage.server
          (exec RsvpEmail.onSubmit
             (Scenario.emailPage [Scenario.emailRsvp "Alex Rivera" "alex@example.com"]
                "Alex" "alex@example.com" "2")))
     = [Scenario.emailRsvp "Alex Rivera" "alex@example.com"].
Proof.
  destruct (C5_duplicate_rejected_without_insert (Some "rivera")
              (Scenario.namedPage [Scenario.namedRsvp "Alex Rivera" "rivera"] " alex rivera ")
              (Scenario.emailPage [Scenario.emailRsvp "Alex Rivera" "alex@example.com"]
                 "Alex" "alex@example.com" "2")
              eq_refl eq_refl eq_refl eq_refl eq_refl eq_refl eq_refl)
    as [[Hn _] [He _]].
  split; [exact Hn | exact He].
Defined.

(** C6 at work: a blank name, and a blank email. *)
Lemma C6_witness :
  RsvpPage.server
    (exec (RsvpNamed.onSubmit (Some "rivera")) (Scenario.namedPage [] "   "))
  = RsvpPage.server (Scenario.namedPage [] "   ")
  /\ RsvpPage.server
       (exec RsvpEmail.onSubmit (Scenario.emailPage [] "Alex Rivera" "  " "2"))
     = RsvpPage.server (Scenario.emailPage [] "Alex Rivera" "  " "2").
Proof.
  destruct (C6_validation_stays_local (Some "rivera")
              (Scenario.namedPage [] "   ")
              (Scenario.emailPage [] "Alex Rivera" "  " "2")
              eq_refl (or_intror eq_refl))
    as [[Hn _] [He _]].
  split; [exact Hn | exact He].
Defined.

(** C9 at work: [%] as guest name and as last name. *)
Lemma C9_witness :
  result (RsvpNamed.checkDuplicate "%")
    (Scenario.namedPage [Scenario.namedRsvp "Alex Rivera" "rivera"] "%")
  = Returned true
  /\ AuthNamed.opened
       (exec (AuthNamed.onSubmit Scenario.secret)
          (Scenario.gate [Scenario.invitee "nguyen"; Scenario.invitee "smith"]
             "%" "alpine")) = true.
Proof.
  destruct (C9_percent_matches_every_row Scenario.secret
              (Scenario.namedPage [Scenario.namedRsvp "Alex Rivera" "rivera"] "%")
              (Scenario.namedRsvp "Alex Rivera" "rivera") []
              (Scenario.gate [Scenario.invitee "nguyen"; Scenario.invitee "smith"]
                 "%" "alpine")
              (Scenario.invitee "nguyen") [Scenario.invitee "smith"]
              eq_refl eq_refl eq_refl eq_refl eq_refl eq_refl)
    as (Hdup & Hopen & _).
  split; [exact Hdup | exact Hopen].
Defined.

(** C10 at work: the guest count [two]. *)
Lemma C10_witness :
  exists r,
    head (Supabase.requests
            (RsvpPage.server
               (exec RsvpEmail.onSubmit
                  (Scenario.emailPage [] "Alex Rivera" "alex@example.com" "two"))))
    = Some (Supabase.InsertRsvps [r])
    /\ RsvpEmail.number_of_guests r = Js.NaN.
Proof.
  eexists. split.
  - apply (C10_guest_count_not_validated
             (Scenario.emailPage [] "Alex Rivera" "alex@example.com" "two") "two");
      first [reflexivity | right; reflexivity].
  - reflexivity.
Defined.

(* ===================================================================== *)
(** ** More about the gate                                                *)
(* ===================================================================== *)

Section TrimFacts.

Lemma trimStart_head (s : string) :
  match Js.trimStart s with
  | EmptyString => True
  | String c _ => Js.isWhiteSpace c = false
  end.
Proof.
  induction s as [|c s IH]; [exact I|].
  cbn. destruct (Js.isWhiteSpace c) eqn:E; [exact IH | exact E].
Qed.

Lemma trimEnd_head (c : ascii) (r : string) :
  Js.isWhiteSpace c = false -> exists r', Js.trimEnd (String c r) = String c r'.
Proof.
  intros E. cbn. destruct (Js.trimEnd r); [rewrite E|]; eauto.
Qed.

Lemma trimEnd_cons (c : ascii) (s : string) :
  Js.trimEnd (String c s)
  = match Js.trimEnd s with
    | EmptyString => if Js.isWhiteSpace c then EmptyString else String c EmptyString
    | r => String c r
    end.
Proof. reflexivity. Qed.

Lemma trimEnd_idempotent (s : string) : Js.trimEnd (Js.trimEnd s) = Js.trimEnd s.
Proof.
  induction s as [|c s IH]; [reflexivity|].
  rewrite trimEnd_cons. destruct (Js.trimEnd s) as [|d t] eqn:Et.
  - destruct (Js.isWhiteSpace c) eqn:E; [reflexivity|].
    rewrite trimEnd_cons. cbn. rewrite E. reflexivity.
  - rewrite trimEnd_cons, IH. reflexivity.
Qed.

(** [trim] leaves a trimmed string alone. *)
Lemma trim_idempotent (s : string) : Js.trim (Js.trim s) = Js.trim s.
Proof.
  unfold Js.trim. pose proof (trimStart_head s) as Hh.
  destruct (Js.trimStart s) as [|c r] eqn:Es; [reflexivity|].
  destruct (trimEnd_head c r Hh) as [r' Hr'].
  assert (Hfix : Js.trimStart (Js.trimEnd (String c r)) = Js.trimEnd (String c r)).
  { rewrite Hr'. cbn. rewrite Hh. reflexivity. }
  rewrite Hfix. apply trimEnd_idempotent.
Qed.

End TrimFacts.

Section GateExtras.
Context {Rsvp : Type}.
Variable CORRECT_PASSWORD : string.

Local Abbreviation World := (AuthNamed.World Rsvp).
Local Abbreviation onSubmit := (AuthNamed.onSubmit CORRECT_PASSWORD).

Lemma take_1_filter_In {A} (f : A -> bool) (l : list A) (x : A) (xs : list A) :
  take 1 (List.filter f l) = x :: xs -> In x l /\ f x = true.
Proof.
  rewrite take_1_filter. destruct (List.find f l) as [y|] eqn:E; [|discriminate].
  intros [= <- _]. apply List.find_some in E. exact E.
Qed.

(** X1.  A run of the submit handler of the name-verified gate never
    throws and ends in one of two ways: nothing is stored, the overlay is
    as before and the submit button is enabled again with the text
    [Enter]; or a row of the invitee table that the pattern matches gave
    the stored name, the overlay leaves and the button stays disabled. *)
Theorem X1_gate_run_outcomes (w : World) :
  result onSubmit w = Returned tt
  /\ ((AuthNamed.session (exec onSubmit w) = AuthNamed.session w
       /\ AuthNamed.overlay_classList (AuthNamed.dom (exec onSubmit w))
          = AuthNamed.overlay_classList (AuthNamed.dom w)
       /\ AuthNamed.submitBtn_disabled (AuthNamed.dom (exec onSubmit w)) = false
       /\ AuthNamed.submitBtn_textContent (AuthNamed.dom (exec onSubmit w)) = "Enter")
      \/ exists row,
           In row (Supabase.tbl_invitees (AuthNamed.server w))
           /\ Sql.ilike (AuthNamed.lastName w) (Supabase.inv_last_name row) = true
           /\ AuthNamed.session (exec onSubmit w)
              = Storage.setItem AuthNamed.LAST_NAME_KEY (Supabase.inv_last_name row)
                  (Storage.setItem AuthNamed.STORAGE_KEY "true" (AuthNamed.session w))
           /\ AuthNamed.opened (exec onSubmit w) = true
           /\ AuthNamed.submitBtn_disabled (AuthNamed.dom (exec onSubmit w)) = true).
Proof.
  unfold AuthNamed.opened, AuthNamed.lastName, AuthNamed.onSubmit. run_js.
  destruct (String.eqb _ CORRECT_PASSWORD); js_cbn;
    [|split; [reflexivity | left; repeat split; reflexivity]].
  unfold AuthNamed.await, Supabase.selectInvitees, Supabase.receive. js_cbn.
  destruct (hd None _); js_cbn;
    [split; [reflexivity | left; repeat split; reflexivity]|].
  destruct (take 1 _) as [|row rest] eqn:Et; js_cbn;
    [split; [reflexivity | left; repeat split; reflexivity]|].
  split; [reflexivity|]. right. exists row.
  apply take_1_filter_In in Et. destruct Et as [Hin Hm].
  repeat split; try reflexivity; try assumption.
  apply opened_after_add.
Qed.

(** X2.  When the lookup of the last name fails (the secret being right),
    the gate reports the generic error, logs the server's message, enables
    the button again and stores nothing; the gate can be submitted again. *)
Theorem X2_gate_lookup_failure (w : World) (message : string) :
  AuthNamed.password w = CORRECT_PASSWORD ->
  hd None (Supabase.faults (AuthNamed.server w)) = Some message ->
  AuthNamed.session (exec onSubmit w) = AuthNamed.session w
  /\ AuthNamed.overlay_classList (AuthNamed.dom (exec onSubmit w))
     = AuthNamed.overlay_classList (AuthNamed.dom w)
  /\ AuthNamed.error_textContent (AuthNamed.dom (exec onSubmit w))
     = "Something went wrong. Please try again."
  /\ AuthNamed.console (exec onSubmit w) = message :: AuthNamed.console w
  /\ AuthNamed.submitBtn_disabled (AuthNamed.dom (exec onSubmit w)) = false
  /\ Supabase.tbl_invitees (AuthNamed.server (exec onSubmit w))
     = Supabase.tbl_invitees (AuthNamed.server w).
Proof.
  intros Hpw Hf. apply String.eqb_eq in Hpw. unfold AuthNamed.password in Hpw.
  unfold AuthNamed.onSubmit. run_js. rewrite Hpw. js_cbn.
  unfold AuthNamed.await, Supabase.selectInvitees, Supabase.receive. js_cbn.
  rewrite Hf. js_cbn. repeat split; reflexivity.
Qed.

(** X3.  A wrong secret is turned away before the guest list is asked:
    no request is sent, the password field is cleared and shaken, the last
    name typed in stays, and the error names the password. *)
Theorem X3_wrong_secret_sends_no_request (w : World) :
  AuthNamed.password w <> CORRECT_PASSWORD ->
  AuthNamed.server (exec onSubmit w) = AuthNamed.server w
  /\ AuthNamed.input_value (AuthNamed.dom (exec onSubmit w)) = EmptyString
  /\ AuthNamed.lastNameInput_value (AuthNamed.dom (exec onSubmit w))
     = AuthNamed.lastNameInput_value (AuthNamed.dom w)
  /\ AuthNamed.error_textContent (AuthNamed.dom (exec onSubmit w))
     = "Incorrect password. Try again!"
  /\ "gate-shake" ∈ AuthNamed.input_classList (AuthNamed.dom (exec onSubmit w))
  /\ AuthNamed.submitBtn_disabled (AuthNamed.dom (exec onSubmit w)) = false.
Proof.
  intros Hpw. apply String.eqb_neq in Hpw. unfold AuthNamed.password in Hpw.
  unfold AuthNamed.onSubmit. run_js. rewrite Hpw. js_cbn.
  repeat split; try reflexivity. set_solver.
Qed.

(** X4.  With the right secret and an answered lookup that finds no row,
    the error names the guest list, the last-name field is shaken, both
    fields keep what was typed, the button is enabled again and nothing is
    stored.  The last name typed does not end in a lone backslash (on such
    a pattern the server can fail the lookup instead of answering it). *)
Theorem X4_name_not_on_the_list (w : World) :
  AuthNamed.password w = CORRECT_PASSWORD ->
  Spec.goThrough 1 (AuthNamed.server w) = true ->
  Sql.wellFormed (AuthNamed.lastName w) = true ->
  AuthNamed.firstMatch w = None ->
  AuthNamed.session (exec onSubmit w) = AuthNamed.session w
  /\ AuthNamed.error_textContent (AuthNamed.dom (exec onSubmit w))
     = "Last name not found on guest list. Please check your invitation or contact us."
  /\ "gate-shake" ∈ AuthNamed.lastNameInput_classList (AuthNamed.dom (exec onSubmit w))
  /\ AuthNamed.input_value (AuthNamed.dom (exec onSubmit w))
     = AuthNamed.input_value (AuthNamed.dom w)
  /\ AuthNamed.lastNameInput_value (AuthNamed.dom (exec onSubmit w))
     = AuthNamed.lastNameInput_value (AuthNamed.dom w)
  /\ AuthNamed.submitBtn_disabled (AuthNamed.dom (exec onSubmit w)) = false
  /\ AuthNamed.console (exec onSubmit w) = AuthNamed.console w.
Proof.
  intros Hpw Hnet _ Hnone. apply String.eqb_eq in Hpw. apply goThrough_hd in Hnet.
  unfold AuthNamed.password in Hpw. unfold AuthNamed.firstMatch, AuthNamed.lastName in Hnone.
  unfold AuthNamed.onSubmit. run_js. rewrite Hpw. js_cbn.
  unfold AuthNamed.await, Supabase.selectInvitees, Supabase.receive. js_cbn.
  rewrite Hnet. js_cbn. rewrite take_1_filter.
  unfold Supabase.holds, Supabase.column, Supabase.invitee_columns. js_cbn.
  change ("last_name" =? "last_name")%string with true. cbv iota.
  rewrite Hnone. js_cbn. repeat split; try reflexivity. set_solver.
Qed.

(** X5.  A configured password that begins or ends with white space can
    never be entered: the handler trims what is typed, so every run ends
    with the session store as it was. *)
Theorem X5_untrimmed_secret_locks_out (w : World) :
  Js.trim CORRECT_PASSWORD <> CORRECT_PASSWORD ->
  AuthNamed.session (exec onSubmit w) = AuthNamed.session w
  /\ AuthNamed.server (exec onSubmit w) = AuthNamed.server w.
Proof.
  intros Hc. apply onSubmit_wrong_password. intros Heq.
  apply Hc. rewrite <- Heq. apply trim_idempotent.
Qed.

End GateExtras.

Section SessionExtras.

(** X6.  Logging out undoes a login: from a store that holds neither key,
    a successful login followed by [logout] gives the store back, in both
    variants of the gate. *)
Theorem X6_logout_undoes_login (CORRECT_PASSWORD name : string)
    (store : gmap string string) :
  store !! AuthNamed.STORAGE_KEY = None ->
  store !! AuthNamed.LAST_NAME_KEY = None ->
  Auth.logout (snd (Auth.attemptLogin CORRECT_PASSWORD CORRECT_PASSWORD store)) = store
  /\ AuthNamed.logout
       (Storage.setItem AuthNamed.LAST_NAME_KEY name
          (Storage.setItem AuthNamed.STORAGE_KEY "true" store)) = store.
Proof.
  intros Hk Hl. split.
  - unfold Auth.attemptLogin. rewrite String.eqb_refl. cbn.
    unfold Auth.logout, Storage.removeItem, Storage.setItem.
    rewrite delete_insert_eq. apply delete_id. exact Hk.
  - unfold AuthNamed.logout, Storage.removeItem, Storage.setItem.
    rewrite (delete_insert_ne _ AuthNamed.STORAGE_KEY AuthNamed.LAST_NAME_KEY)
      by discriminate.
    rewrite delete_insert_eq, delete_insert_eq.
    rewrite (delete_id _ AuthNamed.LAST_NAME_KEY).
    + apply delete_id. exact Hk.
    + rewrite lookup_delete_ne by discriminate. exact Hl.
Qed.

(** X7.  The two variants of the gate share the unlock flag but not the
    test: whatever the name-verified [isAuthenticated] accepts, the
    password-only one accepts too, while a store unlocked by the
    password-only [attemptLogin] is refused by the name-verified test as
    long as no last name is stored. *)
Theorem X7_older_session_is_not_enough (CORRECT_PASSWORD password : string)
    (store : gmap string string) :
  (AuthNamed.isAuthenticated store = true -> Auth.isAuthenticated store = true)
  /\ (store !! AuthNamed.LAST_NAME_KEY = None ->
      AuthNamed.isAuthenticated
        (snd (Auth.attemptLogin CORRECT_PASSWORD password store)) = false).
Proof.
  split.
  - unfold AuthNamed.isAuthenticated, Auth.isAuthenticated.
    intros H. apply andb_true_iff in H as [H _]. exact H.
  - intros Hl. unfold AuthNamed.isAuthenticated, Storage.getItem.
    apply andb_false_iff. right. apply bool_decide_eq_false. intros Hne. apply Hne.
    unfold Auth.attemptLogin. destruct (String.eqb password CORRECT_PASSWORD); cbn.
    + unfold Storage.setItem. rewrite lookup_insert_ne by discriminate. exact Hl.
    + exact Hl.
Qed.

End SessionExtras.

(* ===================================================================== *)
(** ** The password-only gate form and the admin password                 *)
(* ===================================================================== *)

Section SimpleGateExtras.
Variable CORRECT_PASSWORD : string.

(** X8.  The submit handler of the password-only gate compares the typed
    password after trimming it: on a match the flag is stored, the overlay
    leaves and the field keeps its text; otherwise nothing is stored, the
    overlay stays, the field is cleared and shaken and the error is
    shown. *)
Theorem X8_simple_gate_submit (w : AuthForm.World) :
  let w' := exec (AuthForm.onSubmit CORRECT_PASSWORD) w in
  if String.eqb (Js.trim (AuthForm.input_value (AuthForm.dom w))) CORRECT_PASSWORD
  then
    Auth.isAuthenticated (AuthForm.session w') = true
    /\ AuthForm.opened w' = true
    /\ AuthForm.input_value (AuthForm.dom w') = AuthForm.input_value (AuthForm.dom w)
    /\ AuthForm.error_textContent (AuthForm.dom w')
       = AuthForm.error_textContent (AuthForm.dom w)
  else
    AuthForm.session w' = AuthForm.session w
    /\ AuthForm.overlay_classList (AuthForm.dom w')
       = AuthForm.overlay_classList (AuthForm.dom w)
    /\ AuthForm.input_value (AuthForm.dom w') = EmptyString
    /\ AuthForm.error_textContent (AuthForm.dom w') = "Incorrect password. Try again!"
    /\ "gate-shake" ∈ AuthForm.input_classList (AuthForm.dom w').
Proof.
  unfold AuthForm.onSubmit, AuthForm.attemptLogin, Auth.attemptLogin, AuthForm.opened.
  run_js.
  destruct (String.eqb _ CORRECT_PASSWORD); js_cbn.
  - repeat split; try reflexivity.
    + unfold Auth.isAuthenticated, Storage.getItem, Storage.setItem.
      apply bool_decide_eq_true. apply lookup_insert_eq.
    + apply opened_after_add.
  - repeat split; try reflexivity. set_solver.
Qed.

End SimpleGateExtras.

Section AdminAuthExtras.
Variable ADMIN_PASSWORD : string.

(** X9.  The admin password works like the guest one: a wrong password
    returns false and leaves the store as it was, the right one makes
    [isAdminAuthenticated] true, and [adminLogout] makes it false. *)
Theorem X9_admin_login_logout (password : string) (store : gmap string string) :
  (password <> ADMIN_PASSWORD ->
   AdminAuth.adminLogin ADMIN_PASSWORD password store = (false, store))
  /\ AdminAuth.isAdminAuthenticated
       (snd (AdminAuth.adminLogin ADMIN_PASSWORD ADMIN_PASSWORD store)) = true
  /\ AdminAuth.isAdminAuthenticated (AdminAuth.adminLogout store) = false.
Proof.
  unfold AdminAuth.adminLogin, AdminAuth.isAdminAuthenticated, AdminAuth.adminLogout,
    Storage.getItem, Storage.setItem, Storage.removeItem.
  repeat split.
  - intros Hpw. apply String.eqb_neq in Hpw. rewrite Hpw. reflexivity.
  - rewrite String.eqb_refl. cbn. apply bool_decide_eq_true. apply lookup_insert_eq.
  - apply bool_decide_eq_false. rewrite lookup_delete_eq. discriminate.
Qed.

(** X10.  The admin gate and the guest gate do not touch each other's
    flag: [adminLogin] and [adminLogout] leave both variants of
    [isAuthenticated] as they were, and the guest's login (both keys
    stored) and [logout] leave [isAdminAuthenticated] as it was. *)
Theorem X10_admin_and_guest_flags_are_separate (password name : string)
    (store : gmap string string) :
  AuthNamed.isAuthenticated (snd (AdminAuth.adminLogin ADMIN_PASSWORD password store))
  = AuthNamed.isAuthenticated store
  /\ AuthNamed.isAuthenticated (AdminAuth.adminLogout store)
     = AuthNamed.isAuthenticated store
  /\ Auth.isAuthenticated (snd (AdminAuth.adminLogin ADMIN_PASSWORD password store))
     = Auth.isAuthenticated store
  /\ Auth.isAuthenticated (AdminAuth.adminLogout store) = Auth.isAuthenticated store
  /\ AdminAuth.isAdminAuthenticated
       (Storage.setItem AuthNamed.LAST_NAME_KEY name
          (Storage.setItem AuthNamed.STORAGE_KEY "true" store))
     = AdminAuth.isAdminAuthenticated store
  /\ AdminAuth.isAdminAuthenticated (AuthNamed.logout store)
     = AdminAuth.isAdminAuthenticated store
  /\ AdminAuth.isAdminAuthenticated (Auth.logout store)
     = AdminAuth.isAdminAuthenticated store.
Proof.
  unfold AdminAuth.adminLogin, AdminAuth.isAdminAuthenticated, AdminAuth.adminLogout,
    AuthNamed.isAuthenticated, Auth.isAuthenticated, AuthNamed.logout, Auth.logout,
    Storage.getItem, Storage.setItem, Storage.removeItem.
  repeat split.
  - destruct (String.eqb password ADMIN_PASSWORD); cbn; [|reflexivity].
    rewrite !lookup_insert_ne by discriminate. reflexivity.
  - rewrite !lookup_delete_ne by discriminate. reflexivity.
  - destruct (String.eqb password ADMIN_PASSWORD); cbn; [|reflexivity].
    rewrite !lookup_insert_ne by discriminate. reflexivity.
  - rewrite !lookup_delete_ne by discriminate. reflexivity.
  - rewrite !lookup_insert_ne by discriminate. reflexivity.
  - rewrite !lookup_delete_ne by discriminate. reflexivity.
  - rewrite !lookup_delete_ne by discriminate. reflexivity.
Qed.

End AdminAuthExtras.

(* ===================================================================== *)
(** ** The admin statistics and counts                                    *)
(* ===================================================================== *)

Section AdminExtras.

Lemma filter_partition_length {A} (f : A -> bool) (l : list A) :
  (length (List.filter f l) + length (List.filter (fun a => negb (f a)) l))%nat
  = length l.
Proof.
  induction l as [|a l IH]; [reflexivity|].
  cbn. destruct (f a); cbn; lia.
Qed.

(** X11.  In the statistics every RSVP is counted once: "Attending" plus
    "Not Attending" is "Total RSVPs". *)
Theorem X11_stats_add_up (rsvps : list RsvpNamed.Rsvp) :
  (AdminPage.stat_attending (AdminPage.renderStats rsvps)
   + AdminPage.stat_notAttending (AdminPage.renderStats rsvps))%nat
  = AdminPage.stat_total (AdminPage.renderStats rsvps)
  /\ AdminPage.stat_total (AdminPage.renderStats rsvps) = length rsvps.
Proof.
  unfold AdminPage.renderStats. cbn. split; [|reflexivity].
  apply filter_partition_length.
Qed.

(** X12.  One more fetched RSVP raises by one the count of exactly the
    invitees whose last name equals its non-empty last name up to case,
    and leaves every other count as it was. *)
Theorem X12_one_more_rsvp (r : RsvpNamed.Rsvp) (rsvps : list RsvpNamed.Rsvp)
    (invitees : list Supabase.Invitee) :
  List.map Admin.row_rsvdCount
    (Admin.renderInviteesTab invitees (Admin.rsvpCounts (r :: rsvps)))
  = List.map
      (fun row =>
         (Admin.row_rsvdCount row
          + if Js.truthy (RsvpNamed.last_name r)
               && Spec.sameIgnoringCase (RsvpNamed.last_name r) (Admin.row_last_name row)
            then 1 else 0)%nat)
      (Admin.renderInviteesTab invitees (Admin.rsvpCounts rsvps)).
Proof.
  unfold Admin.renderInviteesTab, Admin.rsvpCounts.
  rewrite !List.map_map. apply List.map_ext. intros inv.
  cbn [Admin.row_rsvdCount Admin.row_last_name].
  rewrite !fold_countRsvp, lookup_empty. cbn [List.filter default from_option id].
  unfold Spec.sameIgnoringCase.
  destruct (Js.truthy (RsvpNamed.last_name r) && _); cbn [length]; lia.
Qed.

End AdminExtras.

(* ===================================================================== *)
(** ** The invitee actions of the admin page                              *)
(* ===================================================================== *)

Section InviteeActions.
Import AdminPage.

Ltac admin_cbn :=
  cbn -[Js.trim Sql.ilike Supabase.holds String.eqb String.append renderDashboard].

Ltac run_admin :=
  unfold onAdd, onSave, onDelete, insertInvitee, updateInvitee, deleteInvitee, send,
    alert, confirm, set_addError, withStore;
  unfold exec, result, try_catch, try_catch_finally, bind, ret, throw, get, modify;
  admin_cbn.

(** Rendering the dashboard again sends the two fetches, notes the call
    and leaves tables and dialogs alone; the page shows the tab when both
    fetches are answered and the error line otherwise. *)
Lemma renderDashboard_run (tab : Tab) (w : World) :
  let w' := snd (renderDashboard tab w) in
  tbl_invitees w' = tbl_invitees w
  /\ tbl_rsvps w' = tbl_rsvps w
  /\ rendered w' = tab :: rendered w
  /\ alerts w' = alerts w
  /\ confirms w' = confirms w
  /\ requests w' = FetchInvitees :: FetchRsvps :: requests w
  /\ view w'
     = match hd None (faults w), hd None (tl (faults w)) with
       | None, None => ViewTab tab
       | _, _ => ViewFailed
       end.
Proof.
  unfold renderDashboard, fetchBoth, called, set_content, console_error, send, withStore.
  unfold try_catch, try_catch_finally, bind, ret, throw, modify. cbn.
  destruct (hd None (faults w)); cbn;
    destruct (hd None (tl (faults w))); cbn; repeat split; reflexivity.
Qed.

(** Once both fetches are answered the invitees tab is drawn with a new,
    empty add form; when one fails the form is gone. *)
Lemma renderDashboard_form (w : World) :
  let w' := snd (renderDashboard InviteesTab w) in
  match hd None (faults w), hd None (tl (faults w)) with
  | None, None =>
      new_last_name w' = Some EmptyString /\ new_has_plus_one w' = Some false
      /\ new_plus_one_name w' = Some EmptyString
      /\ add_invitee_error w' = Some EmptyString
      /\ console w' = console w
  | Some message, _ | None, Some message =>
      new_last_name w' = None /\ new_has_plus_one w' = None
      /\ new_plus_one_name w' = None /\ add_invitee_error w' = None
      /\ console w' = message :: console w
  end.
Proof.
  unfold renderDashboard, fetchBoth, called, set_content, console_error, send, withStore.
  unfold try_catch, try_catch_finally, bind, ret, throw, modify. cbn.
  destruct (hd None (faults w)); cbn;
    destruct (hd None (tl (faults w))); cbn; repeat split; reflexivity.
Qed.

Ltac render_facts :=
  match goal with
  | |- context [renderDashboard ?t ?W] =>
      let Hrun := fresh "Hrun" in
      pose proof (renderDashboard_run t W) as Hrun;
      cbn zeta in Hrun;
      cbn [faults tbl_invitees tbl_rsvps rendered requests alerts confirms] in Hrun;
      destruct Hrun as (Hrn1 & Hrn2 & Hrn3 & Hrn4 & Hrn5 & Hrn6 & Hrn7);
      rewrite ?Hrn1, ?Hrn2, ?Hrn3, ?Hrn4, ?Hrn5
  end.

Lemma holds_id (id : string) (inv : Supabase.Invitee) :
  Supabase.holds (Supabase.Eq "id" id) inv = true <-> Supabase.inv_id inv = Some id.
Proof.
  unfold Supabase.holds, Supabase.column, Supabase.invitee_columns. cbn.
  destruct (Supabase.inv_id inv) as [x|].
  - rewrite String.eqb_eq. split; congruence.
  - split; discriminate.
Qed.

(** X13.  An invitee without last name is not sent: when the last-name
    field of the add form is missing, empty or only white space, the
    submit handler leaves the page and the store exactly as they were. *)
Theorem X13_blank_invitee_is_not_sent (w : World) :
  Js.truthy (default EmptyString (option_map Js.trim (new_last_name w))) = false ->
  exec onAdd w = w /\ result onAdd w = Returned tt.
Proof.
  intros Hb. run_admin.
  destruct (new_last_name w) as [v|]; cbn in *; [|split; reflexivity].
  rewrite Hb. split; reflexivity.
Qed.

(** X14.  An answered add appends one invitee row with the trimmed last
    name, the state of the check box and the trimmed plus-one name (none
    when that is empty), touches no other row and no RSVP, and renders the
    invitees tab again: both tables are fetched, and when both fetches are
    answered the tab is drawn with a new, empty add form and error line;
    when one fails the page shows the loading error instead and the form
    is gone. *)
Theorem X14_invitee_added (w : World) (lastName : string) :
  new_last_name w = Some lastName ->
  Js.truthy (Js.trim lastName) = true ->
  hd None (faults w) = None ->
  let row :=
    Supabase.mkInvitee None None (Js.trim lastName)
      (default false (new_has_plus_one w))
      (match new_plus_one_name w with
       | Some v => trimmedOrNull v
       | None => None
       end) in
  let w' := exec onAdd w in
  tbl_invitees w' = (tbl_invitees w ++ [row])%list
  /\ tbl_rsvps w' = tbl_rsvps w
  /\ rendered w' = InviteesTab :: rendered w
  /\ requests w' = FetchInvitees :: FetchRsvps :: InsertInvitee row :: requests w
  /\ match hd None (tl (faults w)), hd None (tl (tl (faults w))) with
     | None, None =>
         view w' = ViewTab InviteesTab
         /\ new_last_name w' = Some EmptyString
         /\ new_has_plus_one w' = Some false
         /\ new_plus_one_name w' = Some EmptyString
         /\ add_invitee_error w' = Some EmptyString
     | _, _ =>
         view w' = ViewFailed
         /\ new_last_name w' = None
         /\ add_invitee_error w' = None
     end.
Proof.
  intros Hn Ht Hf row w'. subst row w'. run_admin. rewrite Hn. admin_cbn.
  rewrite Ht. admin_cbn. rewrite Hf. admin_cbn.
  match goal with
  | |- context [renderDashboard InviteesTab ?W] =>
      pose proof (renderDashboard_run InviteesTab W) as Hrun;
      pose proof (renderDashboard_form W) as Hform
  end.
  cbn zeta in Hrun, Hform. cbn [faults tbl_invitees tbl_rsvps rendered requests] in Hrun, Hform.
  destruct Hrun as (Hi & Hr & Hd & _ & _ & Hq & Hv).
  rewrite Hi, Hr, Hd, Hq, Hv.
  split; [reflexivity|]. split; [reflexivity|]. split; [reflexivity|].
  split; [reflexivity|].
  destruct (hd None (tl (faults w))), (hd None (tl (tl (faults w))));
    destruct Hform as (H1 & H2 & H3 & H4 & _); repeat split; assumption.
Qed.


(** X16.  Nothing is deleted without the user's consent: when the
    confirmation dialog is declined, no request is sent and tables, alerts
    and rendering are as before; the dialog shown names the invitee of the
    row. *)
Theorem X16_declined_delete_sends_nothing (w : World)
    (invitees : list Supabase.Invitee) (inv : Supabase.Invitee) :
  In inv invitees ->
  List.NoDup (List.map Supabase.inv_id invitees) ->
  Supabase.inv_id inv <> None ->
  let w' := exec (onDelete invitees (renderedInputs inv) false) w in
  requests w' = requests w
  /\ faults w' = faults w
  /\ tbl_invitees w' = tbl_invitees w
  /\ tbl_rsvps w' = tbl_rsvps w
  /\ alerts w' = alerts w
  /\ rendered w' = rendered w
  /\ confirms w'
     = ("Delete invitee " +:+ quote +:+ Supabase.inv_last_name inv +:+ quote +:+ "?")
       :: confirms w.
Proof.
  intros Hin Hnd Hid. run_admin. repeat split.
  destruct (Supabase.inv_id inv) as [id|] eqn:Eid; [|congruence].
  unfold dataId. rewrite Eid. cbn [default from_option Datatypes.id].
  assert (Hfind : List.find (fun i => bool_decide (Supabase.inv_id i = Some id)) invitees
                  = Some inv).
  { clear w Hid. induction invitees as [|a l IH]; [destruct Hin|].
    cbn. inversion Hnd as [|? ? Hnotin Hnd']; subst.
    destruct Hin as [->|Hin].
    - rewrite bool_decide_eq_true_2 by exact Eid. reflexivity.
    - rewrite bool_decide_eq_false_2.
      + apply IH; assumption.
      + intros Ha. apply Hnotin. rewrite Ha, <- Eid.
        apply List.in_map. exact Hin. }
  rewrite Hfind. reflexivity.
Qed.

(** X17.  A confirmed and answered delete removes exactly the invitee rows
    with the id of the clicked row: every other row stays, in order, and
    the RSVP table is untouched. *)
Theorem X17_delete_removes_that_row_only (w : World)
    (invitees : list Supabase.Invitee) (row : RowInputs) :
  hd None (faults w) = None ->
  let w' := exec (onDelete invitees row true) w in
  tbl_invitees w'
  = List.filter (fun inv => negb (bool_decide (Supabase.inv_id inv = Some (data_id row))))
      (tbl_invitees w)
  /\ (forall inv, In inv (tbl_invitees w') <->
                  In inv (tbl_invitees w) /\ Supabase.inv_id inv <> Some (data_id row))
  /\ tbl_rsvps w' = tbl_rsvps w
  /\ rendered w' = InviteesTab :: rendered w.
Proof.
  intros Hf.
  assert (Hflt : forall inv,
             negb (Supabase.holds (Supabase.Eq "id" (data_id row)) inv)
             = negb (bool_decide (Supabase.inv_id inv = Some (data_id row)))).
  { intros inv. f_equal.
    destruct (Supabase.holds _ inv) eqn:E.
    - apply holds_id in E. rewrite bool_decide_eq_true_2 by exact E. reflexivity.
    - rewrite bool_decide_eq_false_2; [reflexivity|].
      intros Hc. apply holds_id in Hc. congruence. }
  run_admin. rewrite Hf. admin_cbn. render_facts.
  rewrite (List.filter_ext _ _ Hflt).
  split; [reflexivity|]. split; [|split; reflexivity].
  intros inv. rewrite List.filter_In, negb_true_iff, bool_decide_eq_false.
  reflexivity.
Qed.

(** X18.  An answered save rewrites only the two plus-one fields, and
    only in the rows with the id of the clicked row: ids and last names
    are as before, row by row, rows with another id are unchanged, and the
    RSVP table is untouched. *)
Theorem X18_save_changes_plus_one_only (w : World) (row : RowInputs) :
  hd None (faults w) = None ->
  let w' := exec (onSave row) w in
  List.map Supabase.inv_id (tbl_invitees w') = List.map Supabase.inv_id (tbl_invitees w)
  /\ List.map Supabase.inv_last_name (tbl_invitees w')
     = List.map Supabase.inv_last_name (tbl_invitees w)
  /\ List.filter (fun inv => negb (bool_decide (Supabase.inv_id inv = Some (data_id row))))
       (tbl_invitees w')
     = List.filter (fun inv => negb (bool_decide (Supabase.inv_id inv = Some (data_id row))))
         (tbl_invitees w)
  /\ (forall inv, In inv (tbl_invitees w') ->
                  Supabase.inv_id inv = Some (data_id row) ->
                  Supabase.has_plus_one inv = has_plus_one_checked row
                  /\ Supabase.plus_one_name inv = trimmedOrNull (plus_one_name_value row))
  /\ tbl_rsvps w' = tbl_rsvps w.
Proof.
  intros Hf. run_admin. rewrite Hf. admin_cbn. render_facts.
  generalize (tbl_invitees w) as t. intros t.
  split; [|split; [|split; [|split; [|reflexivity]]]].
  - induction t as [|a t IH]; [reflexivity|]. cbn [List.map]. rewrite IH.
    destruct (Supabase.holds _ a); reflexivity.
  - induction t as [|a t IH]; [reflexivity|]. cbn [List.map]. rewrite IH.
    destruct (Supabase.holds _ a); reflexivity.
  - induction t as [|a t IH]; [reflexivity|]. cbn [List.map List.filter].
    destruct (Supabase.holds _ a) eqn:E.
    + apply holds_id in E. cbn [Supabase.inv_id].
      rewrite !(bool_decide_eq_true_2 _ E). cbn [negb]. exact IH.
    + assert (Hn : Supabase.inv_id a <> Some (data_id row))
        by (intros Hc; apply holds_id in Hc; congruence).
      rewrite !(bool_decide_eq_false_2 _ Hn). cbn [negb]. rewrite IH. reflexivity.
  - intros inv Hin Hid. apply List.in_map_iff in Hin as [a [Ha _]].
    destruct (Supabase.holds _ a) eqn:E; [subst inv; split; reflexivity|].
    subst inv. exfalso. apply holds_id in Hid. congruence.
Qed.





(** Outside that range the row shown is not the row stored: the plus-one
    name [Sam "Sammy" Lee] is shown as [Sam ] (the value ends at the first
    double quote), and Save on the untouched row stores [Sam]. *)
Example quoted_name_is_cut :
  let name := "Sam " +:+ quote +:+ "Sammy" +:+ quote +:+ " Lee" in
  let inv := Cases.stored "i1" "nguyen" true (Some name) in
  rendersAsWritten inv = false
  /\ plus_one_name_value (renderedInputs inv) = "Sam "
  /\ tbl_invitees
       (exec (onSave (renderedInputs inv))
          (Cases.adminWorld [] [inv] EmptyString false EmptyString))
     = [Cases.stored "i1" "nguyen" true (Some "Sam")].
Proof. repeat split; vm_compute; reflexivity. Qed.

End InviteeActions.

(* ===================================================================== *)
(** ** More about the RSVP form                                           *)
(* ===================================================================== *)

Section RsvpExtras.
Import RsvpPage.

Local Abbreviation NamedPage := (Page RsvpNamed.Form RsvpNamed.Rsvp).
Local Abbreviation EmailPage := (Page RsvpEmail.Form RsvpEmail.Rsvp).
Local Abbreviation assigned v el := (match el with None => None | Some _ => Some v end).

Ltac run_rsvp :=
  unfold RsvpNamed.onSubmit, RsvpEmail.onSubmit, RsvpNamed.checkDuplicate,
    RsvpNamed.submitRsvp, RsvpEmail.checkDuplicate, RsvpEmail.submitRsvp, await,
    Supabase.selectRsvps, Supabase.insertRsvps, Supabase.receive,
    showFormMessage, set_submitBtn, form_reset, section_hide, console_error, withServer;
  run_js.

Ltac elements p :=
  destruct (rsvp_message p), (submitBtn p), (section_display p).

Lemma hd_goThrough {Rsvp} (s : Supabase.Server Rsvp) :
  hd None (Supabase.faults s) = None -> Spec.goThrough 1 s = true.
Proof.
  unfold Spec.goThrough. destruct (Supabase.faults s) as [|[m|] fs]; cbn;
    [reflexivity | discriminate | reflexivity].
Qed.

Lemma named_recovers (authLastName : option string) (p : NamedPage) :
  Runs.recovers (RsvpNamed.onSubmit authLastName) p.
Proof.
  unfold Runs.recovers. run_rsvp.
  destruct (Js.truthy _); js_cbn;
    [|elements p; repeat split; try reflexivity; try (left; reflexivity); cbn; lia].
  destruct (hd None (Supabase.faults (server p))); js_cbn;
    [elements p; repeat split; try reflexivity; try (left; reflexivity); cbn; lia|].
  destruct (0 <? _)%nat; js_cbn;
    [elements p; repeat split; try reflexivity; try (left; reflexivity); cbn; lia|].
  destruct (hd None (tail (Supabase.faults (server p)))); js_cbn.
  - elements p; repeat split; try reflexivity; try (left; reflexivity); cbn; lia.
  - elements p; repeat split; try reflexivity; try (right; eexists; reflexivity);
      cbn; lia.
Qed.

Lemma email_recovers (p : EmailPage) : Runs.recovers RsvpEmail.onSubmit p.
Proof.
  unfold Runs.recovers. run_rsvp.
  destruct (negb (Js.truthy _) || negb (Js.truthy _)); js_cbn;
    [elements p; repeat split; try reflexivity; try (left; reflexivity); cbn; lia|].
  destruct (hd None (Supabase.faults (server p))); js_cbn;
    [elements p; repeat split; try reflexivity; try (left; reflexivity); cbn; lia|].
  destruct (0 <? _)%nat; js_cbn;
    [elements p; repeat split; try reflexivity; try (left; reflexivity); cbn; lia|].
  destruct (hd None (tail (Supabase.faults (server p)))); js_cbn.
  - elements p; repeat split; try reflexivity; try (left; reflexivity); cbn; lia.
  - elements p; repeat split; try reflexivity; try (right; eexists; reflexivity);
      cbn; lia.
Qed.

(** X21.  Every run of the RSVP submit handler, in both variants and
    whatever the form holds and the server answers, returns without
    throwing, leaves the submit button enabled with the text [Send RSVP],
    keeps every stored row (the RSVP table is as before or one row
    longer, the invitee table as before) and sends at most two requests. *)
Theorem X21_rsvp_handler_always_recovers (authLastName : option string)
    (p : NamedPage) (q : EmailPage) :
  Runs.recovers (RsvpNamed.onSubmit authLastName) p
  /\ Runs.recovers RsvpEmail.onSubmit q.
Proof. split; [apply named_recovers | apply email_recovers]. Qed.

(** The page after a valid first RSVP with both requests answered. *)
Lemma named_onSubmit_fresh (authLastName : option string) (p : NamedPage) :
  let f := form p in
  let guestName := RsvpNamed.trimmedValue (RsvpNamed.guest_name_value f) in
  let attending := bool_decide (RsvpNamed.attending_checked f = Some "true") in
  Js.truthy guestName = true ->
  Spec.goThrough 2 (server p) = true ->
  existsb (fun r => Sql.ilike guestName (RsvpNamed.guest_name r))
    (Supabase.tbl_rsvps (server p)) = false ->
  exec (RsvpNamed.onSubmit authLastName) p
  = mkPage
      (Spec.inserted
         (RsvpNamed.mkRsvp None None guestName attending
            (default EmptyString authLastName)
            (if bool_decide (RsvpNamed.plus_one_attending_checked f = Some "true")
             then Some true
             else if bool_decide (RsvpNamed.plus_one_attending_checked f = Some "false")
                  then Some false else None)
            (Js.orUndefined (RsvpNamed.trimmedValue (RsvpNamed.dietary_restrictions_value f)))
            (Js.orUndefined (RsvpNamed.trimmedValue (RsvpNamed.rsvp_message_input_value f))))
         (snd (Supabase.receive
                 (Supabase.Select Supabase.rsvps (Supabase.ILike "guest_name" guestName) 1)
                 (server p))))
      (form_defaults p) (form_defaults p)
      (assigned (mkButton false "Send RSVP") (submitBtn p))
      (assigned
         (mkMessageEl
            (if attending
             then "You're on the list, " +:+ guestName +:+ "! Can't wait to see you!"
             else "We'll miss you, " +:+ guestName +:+ ". Thank you for letting us know.")
            "rsvp-message rsvp-message--success")
         (rsvp_message p))
      (assigned "none" (section_display p)) (console p).
Proof.
  intros f guestName attending Hv Hnet Hdup. subst f guestName attending.
  pose proof (goThrough_hd _ _ (goThrough_tl 1 (server p)
               (Supabase.Select Supabase.rsvps (Supabase.ILike "guest_name" EmptyString) 1)
               Hnet)) as H2.
  cbn in H2.
  unfold exec, RsvpNamed.onSubmit. run_js. rewrite Hv. js_cbn.
  rewrite named_checkDuplicate by (apply goThrough_pred, Hnet). js_cbn. rewrite Hdup.
  run_rsvp. rewrite H2. unfold Spec.inserted. js_cbn.
  elements p; reflexivity.
Qed.

(** X22.  A valid first RSVP in the guest-name variant, with both
    requests answered, appends exactly one row: the trimmed guest name,
    the chosen answer, the last name kept from the login (empty if there
    was none) and the optional fields, absent when left empty; the form
    is reset, the plus-one section hidden and the message follows the
    answer.  The guest name does not end in a lone backslash (on such a
    pattern the server can fail the duplicate check). *)
Theorem X22_first_rsvp_is_stored (authLastName : option string) (p : NamedPage) :
  let f := form p in
  let guestName := RsvpNamed.trimmedValue (RsvpNamed.guest_name_value f) in
  let attending := bool_decide (RsvpNamed.attending_checked f = Some "true") in
  Js.truthy guestName = true ->
  Sql.wellFormed guestName = true ->
  Spec.goThrough 2 (server p) = true ->
  existsb (fun r => Sql.ilike guestName (RsvpNamed.guest_name r))
    (Supabase.tbl_rsvps (server p)) = false ->
  let p' := exec (RsvpNamed.onSubmit authLastName) p in
  Supabase.tbl_rsvps (server p')
  = (Supabase.tbl_rsvps (server p)
     ++ [RsvpNamed.mkRsvp None None guestName attending
           (default EmptyString authLastName)
           (if bool_decide (RsvpNamed.plus_one_attending_checked f = Some "true")
            then Some true
            else if bool_decide (RsvpNamed.plus_one_attending_checked f = Some "false")
                 then Some false else None)
           (Js.orUndefined (RsvpNamed.trimmedValue (RsvpNamed.dietary_restrictions_value f)))
           (Js.orUndefined (RsvpNamed.trimmedValue (RsvpNamed.rsvp_message_input_value f)))])%list
  /\ form p' = form_defaults p
  /\ section_display p' = assigned "none" (section_display p)
  /\ rsvp_message p'
     = assigned
         (mkMessageEl
            (if attending
             then "You're on the list, " +:+ guestName +:+ "! Can't wait to see you!"
             else "We'll miss you, " +:+ guestName +:+ ". Thank you for letting us know.")
            "rsvp-message rsvp-message--success")
         (rsvp_message p)
  /\ console p' = console p.
Proof.
  intros f guestName attending Hv _ Hnet Hdup p'. subst f guestName attending p'.
  rewrite (named_onSubmit_fresh authLastName p Hv Hnet Hdup).
  repeat split; reflexivity.
Qed.

(** X23.  A request that fails costs the guest nothing typed: when the
    duplicate check fails no insert is sent, and when the check is
    answered (for a guest name that does not end in a lone backslash),
    finds nothing and the insert fails, no row is added; either way the
    form keeps its values, the generic error is shown and the server's
    message is logged (guest-name variant). *)
Theorem X23_failed_rsvp_keeps_the_form (authLastName : option string) (p : NamedPage)
    (message : string) :
  let guestName := RsvpNamed.trimmedValue (RsvpNamed.guest_name_value (form p)) in
  Js.truthy guestName = true ->
  hd None (Supabase.faults (server p)) = Some message
  \/ (hd None (Supabase.faults (server p)) = None
      /\ Sql.wellFormed guestName = true
      /\ existsb (fun r => Sql.ilike guestName (RsvpNamed.guest_name r))
           (Supabase.tbl_rsvps (server p)) = false
      /\ hd None (tl (Supabase.faults (server p))) = Some message) ->
  let p' := exec (RsvpNamed.onSubmit authLastName) p in
  Supabase.tbl_rsvps (server p') = Supabase.tbl_rsvps (server p)
  /\ form p' = form p
  /\ section_display p' = section_display p
  /\ console p' = message :: console p
  /\ rsvp_message p'
     = assigned
         (mkMessageEl "Something went wrong. Please try again or contact us directly."
            "rsvp-message rsvp-message--error")
         (rsvp_message p)
  /\ (hd None (Supabase.faults (server p)) = Some message ->
      Supabase.requests (server p')
      = Supabase.Select Supabase.rsvps (Supabase.ILike "guest_name" guestName) 1
        :: Supabase.requests (server p)).
Proof.
  intros guestName Hv Hcase p'. subst guestName p'.
  destruct Hcase as [H1 | (H1 & _ & Hdup & H2)].
  - run_rsvp. rewrite Hv. js_cbn. rewrite H1. js_cbn.
    elements p; repeat split; reflexivity.
  - unfold exec, RsvpNamed.onSubmit. run_js. rewrite Hv. js_cbn.
    rewrite named_checkDuplicate by (apply hd_goThrough, H1).
    js_cbn. rewrite Hdup. run_rsvp. rewrite H2. js_cbn.
    elements p; repeat split; try reflexivity; rewrite H1; discriminate.
Qed.

(** X24.  In the email variant a guest who is not attending is stored
    with zero guests whatever the guest-count field holds: a valid first
    RSVP with both requests answered appends one row with
    [attending = false] and [number_of_guests = 0]. *)
Theorem X24_not_attending_stores_zero_guests (p : EmailPage) :
  let f := form p in
  let email := RsvpEmail.trimmedValue (RsvpEmail.guest_email_value f) in
  RsvpEmail.attending_checked f <> Some "true" ->
  Js.truthy (RsvpEmail.trimmedValue (RsvpEmail.guest_name_value f)) = true ->
  Js.truthy email = true ->
  Spec.goThrough 2 (server p) = true ->
  existsb (fun r => String.eqb (RsvpEmail.email r) email)
    (Supabase.tbl_rsvps (server p)) = false ->
  exists r,
    Supabase.tbl_rsvps (server (exec RsvpEmail.onSubmit p))
    = (Supabase.tbl_rsvps (server p) ++ [r])%list
    /\ RsvpEmail.attending r = false
    /\ RsvpEmail.number_of_guests r = Js.Num 0
    /\ RsvpEmail.email r = email.
Proof.
  intros f email Hatt Hn He Hnet Hdup. subst f email.
  pose proof (goThrough_hd _ _ (goThrough_tl 1 (server p)
               (Supabase.Select Supabase.rsvps (Supabase.Eq "email" EmptyString) 1)
               Hnet)) as H2.
  cbn in H2.
  unfold exec, RsvpEmail.onSubmit. run_js. rewrite Hn, He. js_cbn.
  rewrite email_checkDuplicate by (apply goThrough_pred, Hnet). js_cbn. rewrite Hdup.
  run_rsvp. rewrite H2. js_cbn.
  rewrite (bool_decide_eq_false_2 _ Hatt).
  eexists. elements p; repeat split; reflexivity.
Qed.

End RsvpExtras.

(* ===================================================================== *)
(** ** Setting the form up, and from the login to the admin count         *)
(* ===================================================================== *)

Section InitExtras.
Import RsvpPage.

Local Abbreviation assigned v el := (match el with None => None | Some _ => Some v end).

Lemma find_ext_eq {A} (f g : A -> bool) (l : list A) :
  (forall a, f a = g a) -> List.find f l = List.find g l.
Proof.
  intros E. induction l as [|a l IH]; [reflexivity|]. cbn. rewrite E, IH. reflexivity.
Qed.

Ltac run_init :=
  unfold RsvpInit.initRsvpForm, RsvpInit.onPage, RsvpInit.set_plusOneNameSpan,
    RsvpInit.section_show, await, Supabase.selectInvitees, Supabase.receive, withServer,
    Storage.getItem;
  run_js.

(** Setting the form up returns the stored last name. *)
Lemma initRsvpForm_result (store : gmap string string) (ip : RsvpInit.InitPage) :
  result (RsvpInit.initRsvpForm store) ip = Returned (store !! AuthNamed.LAST_NAME_KEY).
Proof.
  change AuthNamed.LAST_NAME_KEY with "wedding_auth_last_name".
  run_init. destruct (Js.truthy _); js_cbn; [|reflexivity].
  destruct (hd None _); js_cbn; [reflexivity|].
  destruct (take 1 _) as [|i ?]; js_cbn; [reflexivity|].
  destruct (Supabase.has_plus_one i), (section_display (RsvpInit.page ip));
    reflexivity.
Qed.

(** X25.  Setting the form up hands the stored last name to the submit
    handler and never throws.  Without a stored last name (none, or the
    empty string) nothing is asked and the page is as before; when the
    lookup fails, the plus-one section and its label are left alone. *)
Theorem X25_form_setup_without_answer (store : gmap string string)
    (ip : RsvpInit.InitPage) :
  let name := default EmptyString (store !! AuthNamed.LAST_NAME_KEY) in
  result (RsvpInit.initRsvpForm store) ip = Returned (store !! AuthNamed.LAST_NAME_KEY)
  /\ (Js.truthy name = false -> exec (RsvpInit.initRsvpForm store) ip = ip)
  /\ (hd None (Supabase.faults (server (RsvpInit.page ip))) <> None ->
      section_display (RsvpInit.page (exec (RsvpInit.initRsvpForm store) ip))
      = section_display (RsvpInit.page ip)
      /\ RsvpInit.plusOneNameSpan_textContent (exec (RsvpInit.initRsvpForm store) ip)
         = RsvpInit.plusOneNameSpan_textContent ip).
Proof.
  intros name. subst name. split; [apply initRsvpForm_result|].
  change AuthNamed.LAST_NAME_KEY with "wedding_auth_last_name".
  split.
  - intros Hn. run_init. rewrite Hn. destruct ip; reflexivity.
  - intros Hf. run_init. destruct (Js.truthy _); js_cbn; [|split; reflexivity].
    destruct (hd None _); js_cbn; [split; reflexivity | congruence].
Qed.

(** X26.  With a stored last name free of pattern characters and an
    answered lookup, the first invitee row with that last name (up to
    case) decides: if it has a plus one, the plus-one section is shown and
    labelled with the plus-one's name, or [Plus One] when there is none;
    otherwise, or without such a row, section and label stay as they
    were. *)
Theorem X26_plus_one_section_follows_first_row (store : gmap string string)
    (ip : RsvpInit.InitPage) (name : string) :
  store !! AuthNamed.LAST_NAME_KEY = Some name ->
  Js.truthy name = true ->
  Sql.noMeta name = true ->
  Spec.goThrough 1 (server (RsvpInit.page ip)) = true ->
  let ip' := exec (RsvpInit.initRsvpForm store) ip in
  match List.find (fun inv => Spec.sameIgnoringCase name (Supabase.inv_last_name inv))
          (Supabase.tbl_invitees (server (RsvpInit.page ip))) with
  | Some inv =>
      if Supabase.has_plus_one inv then
        section_display (RsvpInit.page ip')
        = assigned "block" (section_display (RsvpInit.page ip))
        /\ RsvpInit.plusOneNameSpan_textContent ip'
           = match section_display (RsvpInit.page ip) with
             | Some _ =>
                 assigned (RsvpInit.orElse (Supabase.plus_one_name inv) "Plus One")
                   (RsvpInit.plusOneNameSpan_textContent ip)
             | None => RsvpInit.plusOneNameSpan_textContent ip
             end
      else
        section_display (RsvpInit.page ip') = section_display (RsvpInit.page ip)
        /\ RsvpInit.plusOneNameSpan_textContent ip'
           = RsvpInit.plusOneNameSpan_textContent ip
  | None =>
      section_display (RsvpInit.page ip') = section_display (RsvpInit.page ip)
      /\ RsvpInit.plusOneNameSpan_textContent ip'
         = RsvpInit.plusOneNameSpan_textContent ip
  end.
Proof.
  intros Hs Ht Hm Hnet ip'. subst ip'. apply goThrough_hd in Hnet.
  change AuthNamed.LAST_NAME_KEY with "wedding_auth_last_name" in Hs.
  rewrite <- (find_ext_eq _ _ _ (fun inv => ilike_noMeta name (Supabase.inv_last_name inv) Hm)).
  run_init. rewrite Hs. js_cbn. rewrite Ht. js_cbn. rewrite Hnet. js_cbn.
  rewrite take_1_filter.
  unfold Supabase.holds, Supabase.column, Supabase.invitee_columns. js_cbn.
  change ("last_name" =? "last_name")%string with true. cbv iota.
  destruct (List.find _ _) as [inv|]; js_cbn; [|split; reflexivity].
  destruct (Supabase.has_plus_one inv); js_cbn; [|split; reflexivity].
  destruct (section_display (RsvpInit.page ip)); js_cbn; [|split; reflexivity].
  destruct (RsvpInit.plusOneNameSpan_textContent ip); split; reflexivity.
Qed.

(** X27.  From the login to the admin count: the gate stores the last
    name as the guest list spells it, setting the form up hands that name
    to the submit handler, a valid first RSVP (of a guest name that does
    not end in a lone backslash) is stored under it, and so the matched
    invitee's RSVP count in the admin's invitees tab goes up by one,
    however the guest typed the name at the gate. *)
Theorem X27_login_to_admin_count (CORRECT_PASSWORD : string)
    (w : AuthNamed.World RsvpNamed.Rsvp) (row : Supabase.Invitee)
    (ip : RsvpInit.InitPage) (p : Page RsvpNamed.Form RsvpNamed.Rsvp)
    (fetched : list RsvpNamed.Rsvp) :
  AuthNamed.password w = CORRECT_PASSWORD ->
  Spec.goThrough 1 (AuthNamed.server w) = true ->
  AuthNamed.firstMatch w = Some row ->
  Js.truthy (Supabase.inv_last_name row) = true ->
  Js.truthy (RsvpNamed.trimmedValue (RsvpNamed.guest_name_value (form p))) = true ->
  Sql.wellFormed (RsvpNamed.trimmedValue (RsvpNamed.guest_name_value (form p))) = true ->
  Spec.goThrough 2 (server p) = true ->
  existsb
    (fun r => Sql.ilike (RsvpNamed.trimmedValue (RsvpNamed.guest_name_value (form p)))
                (RsvpNamed.guest_name r))
    (Supabase.tbl_rsvps (server p)) = false ->
  exists authLastName r,
    result
      (RsvpInit.initRsvpForm
         (AuthNamed.session (exec (AuthNamed.onSubmit CORRECT_PASSWORD) w))) ip
    = Returned authLastName
    /\ Supabase.tbl_rsvps (server (exec (RsvpNamed.onSubmit authLastName) p))
       = (Supabase.tbl_rsvps (server p) ++ [r])%list
    /\ RsvpNamed.last_name r = Supabase.inv_last_name row
    /\ List.map Admin.row_rsvdCount
         (Admin.renderInviteesTab [row] (Admin.rsvpCounts (r :: fetched)))
       = List.map (fun row' => S (Admin.row_rsvdCount row'))
           (Admin.renderInviteesTab [row] (Admin.rsvpCounts fetched)).
Proof.
  intros Hpw Hnet Hrow Hname Hv _ Hnet2 Hdup.
  pose proof (onSubmit_lookup CORRECT_PASSWORD w Hpw Hnet) as Hrun.
  rewrite Hrow in Hrun. destruct Hrun as [Hs _].
  pose proof (initRsvpForm_result
                (AuthNamed.session (exec (AuthNamed.onSubmit CORRECT_PASSWORD) w)) ip)
    as Hres.
  rewrite Hs in Hres. unfold Storage.setItem in Hres.
  rewrite lookup_insert_eq in Hres.
  pose proof (named_onSubmit_fresh (Some (Supabase.inv_last_name row)) p Hv Hnet2 Hdup)
    as Hpage.
  eexists. eexists. split; [rewrite Hs; exact Hres|].
  split; [rewrite Hpage; reflexivity|]. split; [reflexivity|].
  unfold Admin.renderInviteesTab, Admin.rsvpCounts.
  cbn [List.map Admin.row_rsvdCount].
  rewrite !fold_countRsvp, lookup_empty.
  cbn [List.filter RsvpNamed.last_name default from_option Datatypes.id].
  rewrite Hname, String.eqb_refl. cbn [andb length]. f_equal.
Qed.

End InitExtras.

(* ===================================================================== *)
(** ** The router and the countdown                                       *)
(* ===================================================================== *)

Section RouterExtras.
Import Router.

Lemma initCurrentPath_getCurrentRoute (location_hash : string) :
  initCurrentPath location_hash = getCurrentRoute location_hash.
Proof.
  unfold initCurrentPath, getCurrentRoute, startsWithSlash.
  destruct (slice1 location_hash) as [|c r]; [reflexivity|].
  destruct c as [[] [] [] [] [] [] [] []]; reflexivity.
Qed.

(** The route found for a path, by cases on the path. *)
Lemma currentRoute_cases (location_hash : string) :
  let c := getCurrentRoute location_hash in
  (c = EmptyString /\ currentRoute location_hash = mkRoute EmptyString "home")
  \/ (c = "details" /\ currentRoute location_hash = mkRoute "details" "details")
  \/ (c = "rsvp" /\ currentRoute location_hash = mkRoute "rsvp" "rsvp")
  \/ (c = "registry" /\ currentRoute location_hash = mkRoute "registry" "registry")
  \/ (c = "admin" /\ currentRoute location_hash = mkRoute "admin" "admin")
  \/ ((forall r, In r routes -> path r <> c)
      /\ currentRoute location_hash = mkRoute EmptyString "home").
Proof.
  unfold currentRoute, routes. generalize (getCurrentRoute location_hash) as c.
  intros c. cbn zeta. cbn [List.find path].
  destruct (String.eqb_spec EmptyString c) as [<-|H0]; [left; split; reflexivity|].
  destruct (String.eqb_spec "details" c) as [<-|H1];
    [right; left; split; reflexivity|].
  destruct (String.eqb_spec "rsvp" c) as [<-|H2];
    [right; right; left; split; reflexivity|].
  destruct (String.eqb_spec "registry" c) as [<-|H3];
    [right; right; right; left; split; reflexivity|].
  destruct (String.eqb_spec "admin" c) as [<-|H4];
    [right; right; right; right; left; split; reflexivity|].
  do 5 right. split; [|reflexivity].
  intros r [<-|[<-|[<-|[<-|[<-|[]]]]]]; assumption.
Qed.

(** X28.  The router always settles on one of its five routes: the route
    of the path after [#] and an optional [/], and home for every other
    hash.  The start-up code reads the path the same way, so the password
    gate is skipped on load exactly when the visitor is authenticated or
    the route shown is the admin page. *)
Theorem X28_route_resolution (location_hash : string) (store : gmap string string) :
  In (currentRoute location_hash) routes
  /\ (forall r, In r routes ->
        currentRoute ("#/" +:+ path r) = r /\ currentRoute ("#" +:+ path r) = r)
  /\ ((forall r, In r routes -> path r <> getCurrentRoute location_hash) ->
      template (currentRoute location_hash) = "home")
  /\ initCurrentPath location_hash = getCurrentRoute location_hash
  /\ showsGate location_hash store
     = negb (String.eqb (template (currentRoute location_hash)) "admin")
       && negb (AuthNamed.isAuthenticated store).
Proof.
  split; [|split; [|split; [|split]]].
  - destruct (currentRoute_cases location_hash)
      as [[_ ->]|[[_ ->]|[[_ ->]|[[_ ->]|[[_ ->]|[_ ->]]]]]]; cbn; tauto.
  - intros r [<-|[<-|[<-|[<-|[<-|[]]]]]]; split; reflexivity.
  - intros Hnone.
    destruct (currentRoute_cases location_hash)
      as [[Hc ->]|[[Hc ->]|[[Hc ->]|[[Hc ->]|[[Hc ->]|[_ ->]]]]]];
      try reflexivity; exfalso.
    + apply (Hnone (mkRoute "details" "details")); [cbn; tauto | symmetry; exact Hc].
    + apply (Hnone (mkRoute "rsvp" "rsvp")); [cbn; tauto | symmetry; exact Hc].
    + apply (Hnone (mkRoute "registry" "registry")); [cbn; tauto | symmetry; exact Hc].
    + apply (Hnone (mkRoute "admin" "admin")); [cbn; tauto | symmetry; exact Hc].
  - apply initCurrentPath_getCurrentRoute.
  - unfold showsGate. rewrite initCurrentPath_getCurrentRoute. f_equal. f_equal.
    destruct (currentRoute_cases location_hash)
      as [[Hc ->]|[[Hc ->]|[[Hc ->]|[[Hc ->]|[[Hc ->]|[Hn ->]]]]]];
      try (rewrite Hc; reflexivity).
    cbn [template]. apply String.eqb_neq. intros Hc.
    apply (Hn (mkRoute "admin" "admin")); [cbn; tauto | symmetry; exact Hc].
Qed.

Lemma onFirst_In (sel : Element -> bool) (f : Element -> Element) (doc : list Element)
    (e : Element) :
  In e (onFirst sel f doc) ->
  In e doc \/ exists e0, In e0 doc /\ sel e0 = true /\ e = f e0.
Proof.
  induction doc as [|a doc IH]; [intros []|].
  cbn. destruct (sel a) eqn:E.
  - intros [<-|Hin]; [right; exists a; auto | left; right; exact Hin].
  - intros [<-|Hin]; [left; left; reflexivity|].
    destruct (IH Hin) as [H|[e0 (H0 & H1 & H2)]]; [left; right; exact H|].
    right. exists e0. auto.
Qed.

Lemma onFirst_length (sel : Element -> bool) (f : Element -> Element) (doc : list Element) :
  length (onFirst sel f doc) = length doc.
Proof.
  induction doc as [|a doc IH]; [reflexivity|].
  cbn. destruct (sel a); cbn; [reflexivity | rewrite IH; reflexivity].
Qed.

(** The elements [updateActiveNav] leaves: a navigation link still marked
    active is the link of the path, or the link to [/]. *)
Lemma updateActiveNav_In (p : string) (doc : list Element) (e : Element) :
  In e (updateActiveNav p doc) ->
  hasClass "nav-link" e = true -> hasClass "active" e = true ->
  is_anchor e = true /\ (href e = "#/" +:+ p \/ href e = "/").
Proof.
  unfold updateActiveNav. intros Hin Hnav Hact.
  assert (Hcleared : forall d, In d (List.map (fun e => if hasClass "nav-link" e
                                  then classList_remove "active" e else e) doc) ->
                     hasClass "nav-link" d = true -> hasClass "active" d = false).
  { intros d Hd Hn. apply List.in_map_iff in Hd as [x [<- _]].
    destruct (hasClass "nav-link" x) eqn:Ex; [|congruence].
    unfold hasClass, classList_remove. cbn. apply bool_decide_eq_false.
    intros Hc. apply elem_of_difference in Hc as [_ Hc]. apply Hc.
    apply elem_of_singleton. reflexivity. }
  assert (Hadd : forall e0 h, anchorTo h e0 = true -> e = classList_add "active" e0 ->
                 is_anchor e = true /\ href e = h).
  { intros e0 h Ha ->. unfold anchorTo in Ha. apply andb_true_iff in Ha as [Ha Hh].
    apply String.eqb_eq in Hh. cbn. auto. }
  destruct (existsb _ _).
  - apply onFirst_In in Hin as [Hin|[e0 (_ & Hsel & He)]].
    + rewrite (Hcleared e Hin Hnav) in Hact. discriminate.
    + destruct (Hadd e0 _ Hsel He) as [Ha Hh]. auto.
  - apply onFirst_In in Hin as [Hin|[e0 (_ & Hsel & He)]].
    + rewrite (Hcleared e Hin Hnav) in Hact. discriminate.
    + destruct (Hadd e0 _ Hsel He) as [Ha Hh]. auto.
Qed.

(** X29.  After [navigate] the document has the same number of elements,
    every page section ([page-content]) that is not hidden is the page of
    the current route, and every navigation link still marked active is
    the link to the current route or, failing that, the link to [/]. *)
Theorem X29_navigate_shows_one_page (location_hash : string) (doc : list Element) :
  let route := currentRoute location_hash in
  length (navigate location_hash doc) = length doc
  /\ (forall e, In e (navigate location_hash doc) ->
        hasClass "page-content" e = true ->
        style_display e <> "none" ->
        el_id e = Some ("page-" +:+ template route) /\ style_display e = "block")
  /\ (forall e, In e (navigate location_hash doc) ->
        hasClass "nav-link" e = true -> hasClass "active" e = true ->
        is_anchor e = true /\ (href e = "#/" +:+ path route \/ href e = "/")).
Proof.
  intros route. subst route. unfold navigate, showPage.
  generalize (currentRoute location_hash) as route. intros route.
  split; [|split].
  - rewrite onFirst_length, List.length_map.
    unfold updateActiveNav. destruct (existsb _ _);
      rewrite onFirst_length, List.length_map; reflexivity.
  - intros e Hin Hpc Hshown.
    apply onFirst_In in Hin as [Hin|[e0 (_ & Hsel & ->)]].
    + apply List.in_map_iff in Hin as [x [<- _]].
      destruct (hasClass "page-content" x) eqn:Ex.
      * exfalso. apply Hshown. reflexivity.
      * congruence.
    + apply bool_decide_eq_true in Hsel. cbn. auto.
  - intros e Hin Hnav Hact.
    assert (Hfrom : exists x, In x (updateActiveNav (path route) doc)
                              /\ classList e = classList x
                              /\ is_anchor e = is_anchor x /\ href e = href x).
    { apply onFirst_In in Hin as [Hin|[e0 (Hin & _ & ->)]].
      - apply List.in_map_iff in Hin as [x [<- Hx]]. exists x.
        destruct (hasClass "page-content" x); auto.
      - apply List.in_map_iff in Hin as [x [<- Hx]]. exists x.
        destruct (hasClass "page-content" x); auto. }
    destruct Hfrom as [x (Hx & Hc & Ha & Hh)].
    rewrite Ha, Hh. apply (updateActiveNav_In (path route) doc x Hx).
    + unfold hasClass in *. rewrite <- Hc. exact Hnav.
    + unfold hasClass in *. rewrite <- Hc. exact Hact.
Qed.

End RouterExtras.

Section CountdownExtras.
Import Countdown.
Local Open Scope Z_scope.

(** X30.  The countdown splits the time left into whole days, hours under
    24, minutes under 60 and seconds under 60 that add up to the time left
    rounded down to the second; once the wedding has passed all four are
    zero. *)
Theorem X30_countdown_parts (weddingTime now : Z) :
  let t := calculateTimeRemaining weddingTime now in
  (weddingTime < now -> t = mkCountdownTime 0 0 0 0)
  /\ (now <= weddingTime ->
      0 <= days t /\ 0 <= hours t < 24 /\ 0 <= minutes t < 60 /\ 0 <= seconds t < 60
      /\ ((days t * 24 + hours t) * 60 + minutes t) * 60 + seconds t
         = (weddingTime - now) / 1000).
Proof.
  unfold calculateTimeRemaining. cbn zeta. split.
  - intros Hlt. destruct (Z.ltb_spec (weddingTime - now) 0); [reflexivity | lia].
  - intros Hle. destruct (Z.ltb_spec (weddingTime - now) 0); [lia|].
    cbn [days hours minutes seconds].
    remember (weddingTime - now) as d eqn:Ed.
    rewrite !Z.rem_mod_nonneg by lia.
    change (1000 * 60 * 60 * 24) with 86400000.
    change (1000 * 60 * 60) with 3600000.
    change (1000 * 60) with 60000.
    Z.div_mod_to_equations. lia.
Qed.

End CountdownExtras.

(* ===================================================================== *)
(** ** The further properties at work                                     *)
(* ===================================================================== *)

Lemma guestList_ids_unique :
  List.NoDup (List.map Supabase.inv_id Cases.guestList).
Proof.
  apply List.NoDup_cons; [cbn; intros [H|[]]; discriminate|].
  apply List.NoDup_cons; [intros [] | apply List.NoDup_nil].
Qed.

(** X2 at work: the server is unreachable. *)
Lemma X2_witness :
  AuthNamed.console
    (exec (AuthNamed.onSubmit Scenario.secret)
       (Cases.gateOffline Cases.guestList "Smith" "alpine"))
  = ["Failed to fetch"].
Proof.
  destruct (X2_gate_lookup_failure Scenario.secret
              (Cases.gateOffline Cases.guestList "Smith" "alpine") "Failed to fetch"
              eq_refl eq_refl)
    as (_ & _ & _ & Hc & _).
  exact Hc.
Defined.

(** X3 at work: a wrong guess. *)
Lemma X3_witness :
  AuthNamed.server
    (exec (AuthNamed.onSubmit Scenario.secret)
       (Scenario.gate Cases.guestList "Smith" "guess"))
  = AuthNamed.server (Scenario.gate Cases.guestList "Smith" "guess").
Proof.
  destruct (X3_wrong_secret_sends_no_request Scenario.secret
              (Scenario.gate Cases.guestList "Smith" "guess"))
    as (Hs & _).
  - vm_compute. discriminate.
  - exact Hs.
Defined.

(** X4 at work: a name that is not on the list. *)
Lemma X4_witness :
  AuthNamed.error_textContent
    (AuthNamed.dom
       (exec (AuthNamed.onSubmit Scenario.secret)
          (Scenario.gate Cases.guestList "Rivera" "alpine")))
  = "Last name not found on guest list. Please check your invitation or contact us.".
Proof.
  destruct (X4_name_not_on_the_list Scenario.secret
              (Scenario.gate Cases.guestList "Rivera" "alpine")
              eq_refl eq_refl eq_refl eq_refl)
    as (_ & He & _).
  exact He.
Defined.

(** X5 at work: the configured password [ alpine] with a leading space. *)
Lemma X5_witness :
  AuthNamed.session
    (exec (AuthNamed.onSubmit " alpine")
       (Scenario.gate Cases.guestList "Smith" " alpine"))
  = ∅.
Proof.
  destruct (X5_untrimmed_secret_locks_out " alpine"
              (Scenario.gate Cases.guestList "Smith" " alpine"))
    as (Hs & _).
  - vm_compute. discriminate.
  - exact Hs.
Defined.

(** X6 at work, from the empty store. *)
Lemma X6_witness :
  Auth.logout (snd (Auth.attemptLogin Scenario.secret Scenario.secret ∅)) = ∅
  /\ AuthNamed.logout
       (Storage.setItem AuthNamed.LAST_NAME_KEY "smith"
          (Storage.setItem AuthNamed.STORAGE_KEY "true" ∅)) = ∅.
Proof.
  apply (X6_logout_undoes_login Scenario.secret "smith" ∅); reflexivity.
Defined.

(** X7 at work: a session of the password-only gate. *)
Lemma X7_witness :
  AuthNamed.isAuthenticated (snd (Auth.attemptLogin Scenario.secret "alpine" ∅)) = false.
Proof.
  destruct (X7_older_session_is_not_enough Scenario.secret "alpine" ∅) as (_ & H).
  apply H. reflexivity.
Defined.

(** X9 at work: a wrong admin password. *)
Lemma X9_witness :
  AdminAuth.adminLogin Cases.adminSecret "guess" ∅ = (false, ∅).
Proof.
  destruct (X9_admin_login_logout Cases.adminSecret "guess" ∅) as (H & _).
  apply H. vm_compute. discriminate.
Defined.

(** X13 at work: a last name of blanks. *)
Lemma X13_witness :
  exec AdminPage.onAdd (Cases.adminWorld [] Cases.guestList "   " true "Sam")
  = Cases.adminWorld [] Cases.guestList "   " true "Sam".
Proof.
  destruct (X13_blank_invitee_is_not_sent
              (Cases.adminWorld [] Cases.guestList "   " true "Sam") eq_refl)
    as (H & _).
  exact H.
Defined.

(** X14 at work: the invitee [Rivera] with a plus one of blanks. *)
Lemma X14_witness :
  AdminPage.tbl_invitees
    (exec AdminPage.onAdd (Cases.adminWorld [] Cases.guestList " Rivera " true "  "))
  = (Cases.guestList ++ [Supabase.mkInvitee None None "Rivera" true None])%list
  /\ AdminPage.add_invitee_error
       (exec AdminPage.onAdd (Cases.adminWorld [] Cases.guestList " Rivera " true "  "))
     = Some EmptyString.
Proof.
  destruct (X14_invitee_added
              (Cases.adminWorld [] Cases.guestList " Rivera " true "  ") " Rivera "
              eq_refl eq_refl eq_refl)
    as (Ht & _ & _ & _ & (_ & _ & _ & _ & He)).
  split; [exact Ht | exact He].
Defined.


(** X16 at work: the dialog for [smith] is declined. *)
Lemma X16_witness :
  AdminPage.tbl_invitees
    (exec (AdminPage.onDelete Cases.guestList
             (AdminPage.renderedInputs (Cases.stored "i2" "smith" false None)) false)
       (Cases.adminWorld [] Cases.guestList EmptyString false EmptyString))
  = Cases.guestList.
Proof.
  destruct (X16_declined_delete_sends_nothing
              (Cases.adminWorld [] Cases.guestList EmptyString false EmptyString)
              Cases.guestList (Cases.stored "i2" "smith" false None))
    as (_ & _ & H & _).
  - right. left. reflexivity.
  - exact guestList_ids_unique.
  - discriminate.
  - exact H.
Defined.

(** X17 at work: [smith] is deleted, [nguyen] stays. *)
Lemma X17_witness :
  AdminPage.tbl_invitees
    (exec (AdminPage.onDelete Cases.guestList
             (AdminPage.renderedInputs (Cases.stored "i2" "smith" false None)) true)
       (Cases.adminWorld [] Cases.guestList EmptyString false EmptyString))
  = [Cases.stored "i1" "nguyen" true (Some "Sam")].
Proof.
  destruct (X17_delete_removes_that_row_only
              (Cases.adminWorld [] Cases.guestList EmptyString false EmptyString)
              Cases.guestList
              (AdminPage.renderedInputs (Cases.stored "i2" "smith" false None))
              eq_refl)
    as (H & _).
  rewrite H. reflexivity.
Defined.

(** X18 at work: a save on the row of [nguyen]. *)
Lemma X18_witness :
  List.map Supabase.inv_last_name
    (AdminPage.tbl_invitees
       (exec (AdminPage.onSave
                (AdminPage.mkRowInputs "i1" true " Kim " false))
          (Cases.adminWorld [] Cases.guestList EmptyString false EmptyString)))
  = ["nguyen"; "smith"].
Proof.
  destruct (X18_save_changes_plus_one_only
              (Cases.adminWorld [] Cases.guestList EmptyString false EmptyString)
              (AdminPage.mkRowInputs "i1" true " Kim " false) eq_refl)
    as (_ & H & _).
  rewrite H. reflexivity.
Defined.



(** X22 at work: the first RSVP of Alex Rivera. *)
Lemma X22_witness :
  Supabase.tbl_rsvps
    (RsvpPage.server
       (exec (RsvpNamed.onSubmit (Some "rivera")) (Scenario.namedPage [] " Alex Rivera ")))
  = [RsvpNamed.mkRsvp None None "Alex Rivera" true "rivera" None None None].
Proof.
  destruct (X22_first_rsvp_is_stored (Some "rivera")
              (Scenario.namedPage [] " Alex Rivera ") eq_refl eq_refl eq_refl eq_refl)
    as (H & _).
  rewrite H. reflexivity.
Defined.

(** X23 at work: the duplicate check cannot reach the server. *)
Lemma X23_witness :
  RsvpPage.form (exec (RsvpNamed.onSubmit None) (Cases.namedOffline "Alex Rivera"))
  = RsvpPage.form (Cases.namedOffline "Alex Rivera").
Proof.
  destruct (X23_failed_rsvp_keeps_the_form None (Cases.namedOffline "Alex Rivera")
              "Failed to fetch" eq_refl (or_introl eq_refl))
    as (_ & H & _).
  exact H.
Defined.

(** X24 at work: not attending, with [7] in the guest-count field. *)
Lemma X24_witness :
  exists r,
    Supabase.tbl_rsvps
      (RsvpPage.server
         (exec RsvpEmail.onSubmit
            (Cases.emailDeclined "Alex Rivera" "alex@example.com" "7")))
    = [r]
    /\ RsvpEmail.number_of_guests r = Js.Num 0.
Proof.
  destruct (X24_not_attending_stores_zero_guests
              (Cases.emailDeclined "Alex Rivera" "alex@example.com" "7"))
    as (r & Ht & _ & Hg & _); try reflexivity.
  - discriminate.
  - exists r. split; [exact Ht | exact Hg].
Defined.

(** X25 at work: no last name in the session. *)
Lemma X25_witness :
  exec (RsvpInit.initRsvpForm ∅) (Cases.initPage Cases.guestList)
  = Cases.initPage Cases.guestList.
Proof.
  destruct (X25_form_setup_without_answer ∅ (Cases.initPage Cases.guestList))
    as (_ & H & _).
  apply H. reflexivity.
Defined.

(** X26 at work: [nguyen] has a plus one, Sam. *)
Lemma X26_witness :
  RsvpPage.section_display
    (RsvpInit.page
       (exec (RsvpInit.initRsvpForm {[AuthNamed.LAST_NAME_KEY := "nguyen"]})
          (Cases.initPage Cases.guestList)))
  = Some "block"
  /\ RsvpInit.plusOneNameSpan_textContent
       (exec (RsvpInit.initRsvpForm {[AuthNamed.LAST_NAME_KEY := "nguyen"]})
          (Cases.initPage Cases.guestList))
     = Some "Sam".
Proof.
  exact (X26_plus_one_section_follows_first_row {[AuthNamed.LAST_NAME_KEY := "nguyen"]}
           (Cases.initPage Cases.guestList) "nguyen" eq_refl eq_refl eq_refl eq_refl).
Defined.

(** X27 at work: [NGUYEN] typed at the gate, [nguyen] on the list. *)
Lemma X27_witness :
  exists authLastName r,
    result
      (RsvpInit.initRsvpForm
         (AuthNamed.session
            (exec (AuthNamed.onSubmit Scenario.secret)
               (Scenario.gate Cases.guestList "NGUYEN" "alpine"))))
      (Cases.initPage Cases.guestList)
    = Returned authLastName
    /\ Supabase.tbl_rsvps
         (RsvpPage.server
            (exec (RsvpNamed.onSubmit authLastName) (Scenario.namedPage [] "Kim Nguyen")))
       = ([] ++ [r])%list
    /\ RsvpNamed.last_name r = "nguyen"
    /\ List.map Admin.row_rsvdCount
         (Admin.renderInviteesTab [Cases.stored "i1" "nguyen" true (Some "Sam")]
            (Admin.rsvpCounts [r]))
       = List.map (fun row' => S (Admin.row_rsvdCount row'))
           (Admin.renderInviteesTab [Cases.stored "i1" "nguyen" true (Some "Sam")]
              (Admin.rsvpCounts [])).
Proof.
  exact (X27_login_to_admin_count Scenario.secret
           (Scenario.gate Cases.guestList "NGUYEN" "alpine")
           (Cases.stored "i1" "nguyen" true (Some "Sam"))
           (Cases.initPage Cases.guestList) (Scenario.namedPage [] "Kim Nguyen") []
           eq_refl eq_refl eq_refl eq_refl eq_refl eq_refl eq_refl eq_refl).
Defined.

(** X28 at work: an unknown path, and the admin page. *)
Lemma X28_witness :
  Router.template (Router.currentRoute "#/gallery") = "home"
  /\ Router.showsGate "#/admin" ∅ = false.
Proof.
  destruct (X28_route_resolution "#/gallery" ∅) as (_ & _ & Hhome & _).
  destruct (X28_route_resolution "#/admin" ∅) as (_ & _ & _ & _ & Hgate).
  split.
  - apply Hhome. intros r [<-|[<-|[<-|[<-|[<-|[]]]]]]; discriminate.
  - rewrite Hgate. reflexivity.
Defined.

(** X29 at work: the RSVP page of the small document. *)
Lemma X29_witness :
  length (Router.navigate "#/rsvp" Cases.document) = 4%nat.
Proof.
  destruct (X29_navigate_shows_one_page "#/rsvp" Cases.document) as (H & _).
  rewrite H. reflexivity.
Defined.

(** X30 at work: 90061 seconds and a half before the wedding. *)
Lemma X30_witness :
  Countdown.calculateTimeRemaining 90061500 0 = Countdown.mkCountdownTime 1 1 1 1
  /\ Countdown.calculateTimeRemaining 0 1 = Countdown.mkCountdownTime 0 0 0 0.
Proof.
  destruct (X30_countdown_parts 0 1) as (Hpast & _).
  split; [reflexivity | apply Hpast; reflexivity].
Defined.
